(** * parity-runner: task model and HTTP task client

    A shallow embedding of [internal/core/models/task.go] (package
    [models]: [TaskConfig.Validate], [Task.Validate]) and of the runner's
    [HTTPTaskClient] (package [runner]: [GetAvailableTasks], [FetchTask],
    [StartTask], [CompleteTask], [SaveTaskResult], [UpdateTaskStatus]).

    Go strings are [string]; a Go [error] is its message; a nilable
    pointer is an [option]; the [TaskResult] the client mutates through
    a pointer lives in an explicit heap.  Calls that leave the process
    (device identity, clock, HTTP) are answered by an oracle that sees
    the history of earlier calls and are recorded in a trace. *)

From Stdlib Require Import ZArith String Ascii List Lia.
From stdpp Require Import base option strings gmap pretty.

Open Scope string_scope.
Open Scope list_scope.

(** ** Errors and formatting *)

(** A Go [error], identified with what its [Error()] method returns. *)
Definition error : Type := string.

(** [errors.New(msg)]. *)
Definition errors_New (msg : string) : error := msg.

(** [fmt.Errorf(prefix + "%s", arg)] and [fmt.Errorf(prefix + "%w", err)]:
    both print the argument after the constant prefix. *)
Definition fmt_Errorf (prefix arg : string) : error := prefix +:+ arg.

(** The [%d] verb on a Go [int]. *)
Definition fmt_d (n : Z) : string := pretty n.

(** ** Scalar types borrowed from the Go libraries *)

(** [uuid.UUID] is a [16]byte array; it is read here as the 128-bit
    number its bytes spell, so [uuid.Nil] (all bytes zero) is [0]. *)
Definition UUID : Type := N.
Definition uuid_Nil : UUID := 0%N.

(** [time.Time] as an instant counted from Go's zero time, so that
    [IsZero] holds exactly of [0]. *)
Definition Time : Type := Z.
Definition Time_IsZero (t : Time) : bool := (t =? 0)%Z.

(** ** Package [models] *)

Definition TaskStatus : Type := string.
Definition TaskType : Type := string.

Definition TaskStatusPending : TaskStatus := "pending".
Definition TaskStatusRunning : TaskStatus := "running".
Definition TaskStatusCompleted : TaskStatus := "completed".
Definition TaskStatusFailed : TaskStatus := "failed".

Definition TaskTypeDocker : TaskType := "docker".
Definition TaskTypeCommand : TaskType := "command".
Definition TaskTypeLLM : TaskType := "llm".
Definition TaskTypeFederatedLearning : TaskType := "federated_learning".

Record ResourceConfig : Type := mkResourceConfig {
  Resources_Memory : string;
  Resources_CPUShares : Z;
  Resources_Timeout : string
}.

Record TaskConfig : Type := mkTaskConfig {
  FileURL : string;
  TaskConfig_Env : gmap string string;
  Resources : ResourceConfig;
  DockerImageURL : string;
  ImageName : string
}.

(** Modelled from the spec: the declaration of [EnvironmentConfig] is
    not among the sources.  It is a structured descriptor with a
    declared kind (the field [Type] read by [Task.Validate]); the rest
    of the descriptor is kept as one uninterpreted field. *)
Record EnvironmentConfig : Type := mkEnvironmentConfig {
  Environment_Type : string;
  Environment_Config : string
}.

Record Task : Type := mkTask {
  Task_ID : UUID;
  Task_Title : string;
  Task_Description : string;
  Task_Type : TaskType;
  Task_Status : TaskStatus;
  Task_Config : string;                       (* json.RawMessage *)
  Task_Environment : option EnvironmentConfig; (* *EnvironmentConfig *)
  Task_Reward : Z;                            (* float64, as its bit pattern *)
  Task_CreatorAddress : string;
  Task_CreatorDeviceID : string;
  Task_RunnerID : string;
  Task_Nonce : string;
  Task_CreatedAt : Time;
  Task_UpdatedAt : Time;
  Task_CompletedAt : option Time              (* *time.Time *)
}.

(** Modelled from the spec: the declaration of [TaskResult] is not
    among the sources.  It carries the task identifier it refers to,
    the reporting runner's identity, a creation timestamp, and an
    execution-specific payload (exit code, logs, output artifacts). *)
Record TaskResult : Type := mkTaskResult {
  TaskID : UUID;
  RunnerAddress : string;
  CreatedAt : Time;
  ExitCode : Z;
  Logs : string;
  OutputArtifacts : list string
}.

(** [func (c *TaskConfig) Validate(taskType TaskType) error];
    [None] is the nil error. *)
Definition TaskConfig_Validate (c : TaskConfig) (taskType : TaskType)
  : option error :=
  if String.eqb taskType TaskTypeDocker then
    if String.eqb (ImageName c) "" then
      Some (errors_New "image name is required for Docker tasks")
    else None
  else if String.eqb taskType TaskTypeCommand then None
  else if String.eqb taskType TaskTypeLLM then None
  else if String.eqb taskType TaskTypeFederatedLearning then None
  else Some (fmt_Errorf "unsupported task type: " taskType).

(** The pure functions of [encoding/json], [google/uuid] and [net/http]
    that the two packages call.  They are library code, taken as an
    interface. *)
Class Libraries : Type := {
  (** [json.Unmarshal(data, &config)] into a zero [TaskConfig]. *)
  json_Unmarshal_TaskConfig : string -> error + TaskConfig;
  (** [json.NewDecoder(body).Decode(&tasks)] for [[]*models.Task];
      a JSON [null] element decodes to a nil pointer. *)
  json_Decode_Tasks : string -> error + list (option Task);
  (** [json.Marshal(result)]. *)
  json_Marshal_TaskResult : TaskResult -> error + string;
  (** [json.NewDecoder(body).Decode(&errResp)]: the [error] member. *)
  json_Decode_errResp : string -> error + string;
  (** [uuid.Parse]. *)
  uuid_Parse : string -> error + UUID;
  (** [UUID.String]. *)
  uuid_String : UUID -> string;
  (** The error, if any, with which [http.NewRequest(method, url, _)]
      refuses its arguments. *)
  http_NewRequest_error : string -> string -> option error
}.

Section TaskModel.
Context `{Libraries}.

(** [func (t *Task) Validate() error]. *)
Definition Task_Validate (t : Task) : option error :=
  if String.eqb (Task_Title t) "" then
    Some (errors_New "title is required")
  else if String.eqb (Task_Type t) "" then
    Some (errors_New "task type is required")
  else
    match json_Unmarshal_TaskConfig (Task_Config t) with
    | inl err => Some (fmt_Errorf "failed to unmarshal task config: " err)
    | inr config =>
        match TaskConfig_Validate config (Task_Type t) with
        | Some err => Some err
        | None =>
            if String.eqb (Task_Type t) TaskTypeDocker
               && match Task_Environment t with
                  | None => true
                  | Some env =>
                      negb (String.eqb (Environment_Type env) "docker")
                  end
            then
              Some (errors_New
                "docker environment configuration is required for docker tasks")
            else None
        end
    end.
End TaskModel.

(** ** Package [runner]: the HTTP task client *)

(** [strings.TrimSuffix]. *)
Definition strings_HasSuffix (s suffix : string) : bool :=
  (String.length suffix <=? String.length s)%nat
  && String.eqb
       (substring (String.length s - String.length suffix)
                  (String.length suffix) s)
       suffix.

Definition strings_TrimSuffix (s suffix : string) : string :=
  if strings_HasSuffix s suffix
  then substring 0 (String.length s - String.length suffix) s
  else s.

(** [net/http]: the parts of a request and of a response the client
    touches.  Header keys are kept as the client writes them. *)
Record Request : Type := mkRequest {
  Request_Method : string;
  Request_URL : string;
  Request_Header : gmap string string;
  Request_Body : option string               (* nil reader, or the bytes *)
}.

Definition Header_Set (key value : string) (req : Request) : Request :=
  mkRequest (Request_Method req) (Request_URL req)
            (<[key := value]> (Request_Header req)) (Request_Body req).

Record Response : Type := mkResponse {
  StatusCode : Z;
  Body : string                              (* what reading the body yields *)
}.

Definition http_StatusOK : Z := 200.
Definition http_StatusBadRequest : Z := 400.
Definition http_StatusNotFound : Z := 404.
Definition http_StatusConflict : Z := 409.

(** [http.Client]; [Timeout] is a [time.Duration] in nanoseconds and
    zero means no timeout, as in [http.DefaultClient]. *)
Record Client : Type := mkClient { Client_Timeout : Z }.

Definition time_Second : Z := 1000000000.
Definition http_DefaultClient : Client := mkClient 0.

(** The calls that leave the process. *)
Inductive HttpCall : Type :=
  | Get (url : string)
  | Post (url contentType : string) (body : option string)
  | Do (client : Client) (req : Request).

Inductive Call : Type :=
  | CallVerifyDeviceID
  | CallNow
  | CallHttp (h : HttpCall).

(** The outside world: what each call returns, given the calls made so
    far (oldest first). *)
Class World : Type := {
  answer_VerifyDeviceID : list Call -> error + string;
  answer_Now : list Call -> Time;
  answer_Http : list Call -> HttpCall -> error + Response
}.

(** Memory: the [TaskResult] objects reachable through pointers, and
    the calls made so far. *)
Abbreviation loc := positive (only parsing).

Record State : Type := mkState {
  heap : gmap loc TaskResult;
  trace : list Call
}.

(** How a Go call ends: normally with a value, with a non-nil [error],
    or in a panic. *)
Inductive outcome (A : Type) : Type :=
  | Ok (a : A)
  | Err (e : error)
  | Panic (msg : string).
Arguments Ok {A} a.
Arguments Err {A} e.
Arguments Panic {A} msg.

(** Client code: a state transformer that ends in an [outcome]; an
    error or a panic stops what follows. *)
Definition M (A : Type) : Type := State -> outcome A * State.

Definition ret {A} (a : A) : M A := fun st => (Ok a, st).
Definition throw {A} (e : error) : M A := fun st => (Err e, st).
Definition panic {A} (msg : string) : M A := fun st => (Panic msg, st).

Definition bind {A B} (m : M A) (k : A -> M B) : M B :=
  fun st =>
    match m st with
    | (Ok a, st') => k a st'
    | (Err e, st') => (Err e, st')
    | (Panic msg, st') => (Panic msg, st')
    end.

Notation "'let*' x ':=' m 'in' k" := (bind m (fun x => k))
  (at level 10, x name, m at level 100, k at level 200).
Notation "'run' m 'in' k" := (bind m (fun _ => k))
  (at level 10, m at level 100, k at level 200).

(** [if err != nil { return fmt.Errorf(prefix + "%w", err) }]. *)
Definition check {A} (prefix : string) (r : error + A) : M A :=
  match r with
  | inl err => throw (fmt_Errorf prefix err)
  | inr a => ret a
  end.

(** A call is appended to the trace when it is made. *)
Definition record_call (c : Call) (st : State) : State :=
  mkState (heap st) (trace st ++ [c]).

Definition nil_dereference : string :=
  "runtime error: invalid memory address or nil pointer dereference".

(** Reading and writing through a [*TaskResult]; [None] is nil.  A
    location outside the heap is treated like nil: Go has no dangling
    pointers, so no caller can produce one. *)
Definition load (p : option loc) : M TaskResult :=
  fun st =>
    match p with
    | None => (Panic nil_dereference, st)
    | Some l =>
        match heap st !! l with
        | Some r => (Ok r, st)
        | None => (Panic nil_dereference, st)
        end
    end.

Definition store (p : option loc) (r : TaskResult) : M unit :=
  fun st =>
    match p with
    | None => (Panic nil_dereference, st)
    | Some l => (Ok tt, mkState (<[l := r]> (heap st)) (trace st))
    end.

Record HTTPTaskClient : Type := mkHTTPTaskClient { baseURL : string }.

Definition NewHTTPTaskClient (baseURL : string) : HTTPTaskClient :=
  mkHTTPTaskClient baseURL.

Section TaskClient.
Context `{Libraries} `{World}.

(** [deviceid.NewManager(deviceid.Config{}).VerifyDeviceID()]. *)
Definition deviceid_VerifyDeviceID : M (error + string) :=
  fun st => (Ok (answer_VerifyDeviceID (trace st)),
             record_call CallVerifyDeviceID st).

(** [time.Now()]. *)
Definition time_Now : M Time :=
  fun st => (Ok (answer_Now (trace st)), record_call CallNow st).

Definition http_call (h : HttpCall) : M (error + Response) :=
  fun st => (Ok (answer_Http (trace st) h), record_call (CallHttp h) st).

(** [http.Get(url)], [http.Post(url, contentType, body)] and
    [client.Do(req)]. *)
Definition http_Get (url : string) : M (error + Response) :=
  http_call (Get url).
Definition http_Post (url contentType : string) (body : option string)
  : M (error + Response) :=
  http_call (Post url contentType body).
Definition Client_Do (client : Client) (req : Request)
  : M (error + Response) :=
  http_call (Do client req).

(** [http.NewRequest(method, url, body)]. *)
Definition http_NewRequest (method url : string) (body : option string)
  : error + Request :=
  match http_NewRequest_error method url with
  | Some err => inl err
  | None => inr (mkRequest method url ∅ body)
  end.

(** [uuid.MustParse(s)]. *)
Definition uuid_MustParse (s : string) : M UUID :=
  match uuid_Parse s with
  | inl err => panic ("uuid: Parse(" +:+ s +:+ "): " +:+ err)
  | inr u => ret u
  end.

Definition unexpected_status (code : Z) : error :=
  fmt_Errorf "unexpected status code: " (fmt_d code).

(** [func (c *HTTPTaskClient) GetAvailableTasks()], which returns a
    [[]*models.Task] and an [error]. *)
Definition GetAvailableTasks (c : HTTPTaskClient)
  : M (list (option Task)) :=
  let baseURL := strings_TrimSuffix (baseURL c) "/api" in
  let url := baseURL +:+ "/api/v1/runners/tasks/available" in
  let* r := http_Get url in
  let* resp := check ("HTTP GET failed for " +:+ url +:+ ": ") r in
  if negb (StatusCode resp =? http_StatusOK)%Z then
    throw (unexpected_status (StatusCode resp))
  else
    let* tasks := check "failed to decode response: "
                        (json_Decode_Tasks (Body resp)) in
    ret tasks.

(** [func (c *HTTPTaskClient) StartTask(taskID string) error].  The body
    is read whatever the status; [Body resp] is what was read. *)
Definition StartTask (c : HTTPTaskClient) (taskID : string) : M unit :=
  let baseURL := strings_TrimSuffix (baseURL c) "/api" in
  let url := baseURL +:+ "/api/v1/runners/tasks/" +:+ taskID +:+ "/start" in
  let* r := deviceid_VerifyDeviceID in
  let* deviceID := check "failed to get device ID: " r in
  let* req := check "failed to create request: "
                    (http_NewRequest "POST" url None) in
  let req := Header_Set "X-Device-ID" deviceID req in
  let client := mkClient (10 * time_Second) in
  let* r := Client_Do client req in
  let* resp := check ("HTTP POST failed for " +:+ url +:+ ": ") r in
  let body := Body resp in
  if (StatusCode resp =? http_StatusOK)%Z then ret tt
  else if (StatusCode resp =? http_StatusConflict)%Z then
    throw (fmt_Errorf "task unavailable: " body)
  else if (StatusCode resp =? http_StatusBadRequest)%Z then
    throw (fmt_Errorf "bad request: " body)
  else if (StatusCode resp =? http_StatusNotFound)%Z then
    throw (errors_New "task not found")
  else
    throw ("unexpected status code: " +:+ fmt_d (StatusCode resp)
           +:+ ", body: " +:+ body).

(** [func (c *HTTPTaskClient) CompleteTask(taskID string) error]. *)
Definition CompleteTask (c : HTTPTaskClient) (taskID : string) : M unit :=
  let baseURL := strings_TrimSuffix (baseURL c) "/api" in
  let url :=
    baseURL +:+ "/api/v1/runners/tasks/" +:+ taskID +:+ "/complete" in
  let* r := http_Post url "application/json" None in
  let* resp := check ("HTTP POST failed for " +:+ url +:+ ": ") r in
  if negb (StatusCode resp =? http_StatusOK)%Z then
    throw (unexpected_status (StatusCode resp))
  else ret tt.

(** The three default-filling statements of [SaveTaskResult], each a
    read of the field through the pointer followed, if the field is
    at its zero value, by a write through the pointer. *)
Definition fill_TaskID (taskID : string) (result : option loc) : M unit :=
  let* r := load result in
  if (TaskID r =? uuid_Nil)%N then
    let* u := uuid_MustParse taskID in
    store result (mkTaskResult u (RunnerAddress r) (CreatedAt r)
                               (ExitCode r) (Logs r) (OutputArtifacts r))
  else ret tt.

Definition fill_CreatedAt (result : option loc) : M unit :=
  let* r := load result in
  if Time_IsZero (CreatedAt r) then
    let* now := time_Now in
    store result (mkTaskResult (TaskID r) (RunnerAddress r) now
                               (ExitCode r) (Logs r) (OutputArtifacts r))
  else ret tt.

Definition fill_RunnerAddress (deviceID : string) (result : option loc)
  : M unit :=
  let* r := load result in
  if String.eqb (RunnerAddress r) "" then
    store result (mkTaskResult (TaskID r) deviceID (CreatedAt r)
                               (ExitCode r) (Logs r) (OutputArtifacts r))
  else ret tt.

(** [func (c *HTTPTaskClient) SaveTaskResult(taskID string,
    result *models.TaskResult) error]. *)
Definition SaveTaskResult (c : HTTPTaskClient) (taskID : string)
                          (result : option loc) : M unit :=
  let baseURL := strings_TrimSuffix (baseURL c) "/api" in
  let url :=
    baseURL +:+ "/api/v1/runners/tasks/" +:+ taskID +:+ "/result" in
  let* r := deviceid_VerifyDeviceID in
  let* deviceID := check "failed to get device ID: " r in
  run fill_TaskID taskID result in
  run fill_CreatedAt result in
  run fill_RunnerAddress deviceID result in
  let* r := load result in
  let* body := check "failed to marshal result: "
                     (json_Marshal_TaskResult r) in
  let* req := check "failed to create request: "
                    (http_NewRequest "POST" url (Some body)) in
  let req := Header_Set "Content-Type" "application/json" req in
  let req := Header_Set "X-Device-ID" deviceID req in
  let* r := Client_Do http_DefaultClient req in
  let* resp := check ("HTTP POST failed for " +:+ url +:+ ": ") r in
  if negb (StatusCode resp =? http_StatusOK)%Z then
    match json_Decode_errResp (Body resp) with
    | inr msg =>
        if negb (String.eqb msg "") then
          throw (fmt_Errorf "server error: " msg)
        else throw (unexpected_status (StatusCode resp))
    | inl _ => throw (unexpected_status (StatusCode resp))
    end
  else ret tt.

(** [task.ID] on a [*models.Task]. *)
Definition deref_Task (task : option Task) : M Task :=
  match task with
  | None => panic nil_dereference
  | Some t => ret t
  end.

(** [func (c *HTTPTaskClient) FetchTask()], which returns a
    [*models.Task] and an [error]; the task returned is the one the first
    pointer of the list refers to. *)
Definition FetchTask (c : HTTPTaskClient) : M Task :=
  let* tasks := GetAvailableTasks c in
  match tasks with
  | [] => throw (errors_New "no tasks available")
  | task :: _ =>
      let* t := deref_Task task in
      run StartTask c (uuid_String (Task_ID t)) in
      ret t
  end.

(** [func (c *HTTPTaskClient) UpdateTaskStatus(taskID string,
    status models.TaskStatus, result *models.TaskResult) error]. *)
Definition UpdateTaskStatus (c : HTTPTaskClient) (taskID : string)
                            (status : TaskStatus) (result : option loc)
  : M unit :=
  if String.eqb status TaskStatusRunning then StartTask c taskID
  else if String.eqb status TaskStatusCompleted
          || String.eqb status TaskStatusFailed then
    run CompleteTask c taskID in
    match result with
    | Some _ => SaveTaskResult c taskID result
    | None => ret tt
    end
  else throw (fmt_Errorf "unsupported status: " status).
End TaskClient.

(** ** The reporting calls with dynamic payloads, and [NewTask] *)

(** A value stored in a [map[string]interface{}] payload of the client:
    a string, an [int] or [int64], a [float64] (kept as its bit
    pattern; the client never computes with it), a
    [map[string][]float64] (nil or a map of slices, each nil or a
    sequence of bit patterns), or a nested payload. *)
#[warnings="-register-all"]
Inductive JSONValue : Type :=
  | JString (s : string)
  | JInt (n : Z)
  | JFloat (bits : Z)
  | JFloatSlices (m : option (gmap string (option (list Z))))
  | JObject (fields : gmap string JSONValue).

(** The further library functions these calls use. *)
Class PayloadLibraries : Type := {
  (** [json.Marshal(payload)] on a [map[string]interface{}]. *)
  json_Marshal_payload : gmap string JSONValue -> error + string;
  (** [json.Unmarshal(bodyBytes, &errResp)]: the [error] member. *)
  json_Unmarshal_errResp : string -> error + string
}.

(** What [uuid.NewRandom()] returns, given the calls made so far. *)
Class Entropy : Type := {
  answer_uuid_NewRandom : list Call -> error + UUID
}.

(** [Time.Unix()]: seconds since 1970, the instant being counted in
    nanoseconds from Go's zero time. *)
Definition Time_Unix (t : Time) : Z :=
  (t / 1000000000 - 62135596800)%Z.

Section Reporting.
Context `{Libraries} `{PayloadLibraries} `{Entropy} `{World}.



(** [func (c *HTTPTaskClient) CompletePrompt(promptID uuid.UUID,
    response string, promptTokens, responseTokens int,
    inferenceTime int64) error]. *)
Definition CompletePrompt (c : HTTPTaskClient) (promptID : UUID)
    (response : string) (promptTokens responseTokens : Z)
    (inferenceTime : Z) : M unit :=
  let baseURL := strings_TrimSuffix (baseURL c) "/api" in
  let url :=
    baseURL +:+ "/api/v1/llm/prompts/" +:+ uuid_String promptID
    +:+ "/complete" in
  let payload : gmap string JSONValue :=
    list_to_map [("response", JString response);
                 ("prompt_tokens", JInt promptTokens);
                 ("response_tokens", JInt responseTokens);
                 ("inference_time_ms", JInt inferenceTime)] in
  let* body := check "failed to marshal completion payload: "
                     (json_Marshal_payload payload) in
  let* req := check "failed to create request: "
                    (http_NewRequest "POST" url (Some body)) in
  let req := Header_Set "Content-Type" "application/json" req in
  let client := mkClient (10 * time_Second) in
  let* r := Client_Do client req in
  let* resp := check ("HTTP POST failed for " +:+ url +:+ ": ") r in
  if negb (StatusCode resp =? http_StatusOK)%Z then
    match json_Decode_errResp (Body resp) with
    | inr msg =>
        if negb (String.eqb msg "") then
          throw (fmt_Errorf "server error: " msg)
        else throw (unexpected_status (StatusCode resp))
    | inl _ => throw (unexpected_status (StatusCode resp))
    end
  else ret tt.

(** [func (c *HTTPTaskClient) SubmitFLModelUpdate(...) error].  The
    payload literal reads the clock, so [time.Now()] is the first call
    made. *)
Definition SubmitFLModelUpdate (c : HTTPTaskClient)
    (sessionID roundID runnerID : string)
    (gradients weights : option (gmap string (option (list Z))))
    (dataSize : Z) (loss accuracy : Z) (trainingTime : Z) : M unit :=
  let baseURL := strings_TrimSuffix (baseURL c) "/api" in
  let url := baseURL +:+ "/api/v1/federated-learning/model-updates" in
  let* now := time_Now in
  let payload : gmap string JSONValue :=
    list_to_map
      [("session_id", JString sessionID);
       ("round_id", JString roundID);
       ("runner_id", JString runnerID);
       ("gradients", JFloatSlices gradients);
       ("weights", JFloatSlices weights);
       ("update_type", JString "gradients");
       ("data_size", JInt dataSize);
       ("loss", JFloat loss);
       ("accuracy", JFloat accuracy);
       ("training_time", JInt trainingTime);
       ("metadata",
        JObject (list_to_map [("submission_time", JInt (Time_Unix now))]))]
  in
  let* body := check "failed to marshal FL model update: "
                     (json_Marshal_payload payload) in
  let* req := check "failed to create FL model update request: "
                    (http_NewRequest "POST" url (Some body)) in
  let req := Header_Set "Content-Type" "application/json" req in
  let client := mkClient (30 * time_Second) in
  let* r := Client_Do client req in
  let* resp :=
    check ("HTTP POST failed for FL model update " +:+ url +:+ ": ") r in
  if negb (StatusCode resp =? http_StatusOK)%Z then
    let bodyBytes := Body resp in
    match json_Unmarshal_errResp bodyBytes with
    | inr msg =>
        if negb (String.eqb msg "") then
          throw (fmt_Errorf "FL model update server error: " msg)
        else
          throw ("FL model update unexpected status code: "
                 +:+ fmt_d (StatusCode resp) +:+ ", body: " +:+ bodyBytes)
    | inl _ =>
        throw ("FL model update unexpected status code: "
               +:+ fmt_d (StatusCode resp) +:+ ", body: " +:+ bodyBytes)
    end
  else ret tt.
End Reporting.

(** ** Vocabulary of the specification *)

(** The closed enumeration of task types. *)
Definition recognized (T : TaskType) : Prop :=
  T = TaskTypeDocker \/ T = TaskTypeCommand \/ T = TaskTypeLLM
  \/ T = TaskTypeFederatedLearning.

(** The environment descriptor is missing or not of kind "docker". *)
Definition no_docker_environment (t : Task) : Prop :=
  match Task_Environment t with
  | None => True
  | Some env => Environment_Type env <> "docker"
  end.

(** The task [t] with its nonce replaced. *)
Definition with_Nonce (nonce : string) (t : Task) : Task :=
  mkTask (Task_ID t) (Task_Title t) (Task_Description t) (Task_Type t)
         (Task_Status t) (Task_Config t) (Task_Environment t)
         (Task_Reward t) (Task_CreatorAddress t) (Task_CreatorDeviceID t)
         (Task_RunnerID t) nonce (Task_CreatedAt t) (Task_UpdatedAt t)
         (Task_CompletedAt t).

(** The endpoints, and the requests the client builds for them. *)
Definition api_root (c : HTTPTaskClient) : string :=
  strings_TrimSuffix (baseURL c) "/api".
Definition available_url (c : HTTPTaskClient) : string :=
  api_root c +:+ "/api/v1/runners/tasks/available".
Definition start_url (c : HTTPTaskClient) (taskID : string) : string :=
  api_root c +:+ "/api/v1/runners/tasks/" +:+ taskID +:+ "/start".
Definition complete_url (c : HTTPTaskClient) (taskID : string) : string :=
  api_root c +:+ "/api/v1/runners/tasks/" +:+ taskID +:+ "/complete".
Definition result_url (c : HTTPTaskClient) (taskID : string) : string :=
  api_root c +:+ "/api/v1/runners/tasks/" +:+ taskID +:+ "/result".

Definition start_call (c : HTTPTaskClient) (taskID deviceID : string)
  : HttpCall :=
  Do (mkClient (10 * time_Second))
     (Header_Set "X-Device-ID" deviceID
        (mkRequest "POST" (start_url c taskID) ∅ None)).

Definition complete_call (c : HTTPTaskClient) (taskID : string) : HttpCall :=
  Post (complete_url c taskID) "application/json" None.

Definition result_call (c : HTTPTaskClient) (taskID deviceID body : string)
  : HttpCall :=
  Do http_DefaultClient
     (Header_Set "X-Device-ID" deviceID
        (Header_Set "Content-Type" "application/json"
           (mkRequest "POST" (result_url c taskID) ∅ (Some body)))).

(** The HTTP calls of a trace, in order. *)
Definition http_calls (tr : list Call) : list HttpCall :=
  flat_map (fun c => match c with CallHttp h => [h] | _ => [] end) tr.

(** The spec's "fill defaults before send" step as a pure function of a
    result and a context (task id, clock, identity). *)
Definition fill_defaults (pathID : UUID) (now : Time) (deviceID : string)
                         (r : TaskResult) : TaskResult :=
  mkTaskResult
    (if (TaskID r =? uuid_Nil)%N then pathID else TaskID r)
    (if String.eqb (RunnerAddress r) "" then deviceID else RunnerAddress r)
    (if Time_IsZero (CreatedAt r) then now else CreatedAt r)
    (ExitCode r) (Logs r) (OutputArtifacts r).

(** The calls [SaveTaskResult] makes before it serializes [r]. *)
Definition fill_calls (r : TaskResult) : list Call :=
  CallVerifyDeviceID :: (if Time_IsZero (CreatedAt r) then [CallNow] else []).

(** The error [SaveTaskResult] reports for a non-200 response. *)
Definition result_status_error `{Libraries} (resp : Response) : error :=
  match json_Decode_errResp (Body resp) with
  | inr msg =>
      if negb (String.eqb msg "") then fmt_Errorf "server error: " msg
      else fmt_Errorf "unexpected status code: " (fmt_d (StatusCode resp))
  | inl _ => fmt_Errorf "unexpected status code: " (fmt_d (StatusCode resp))
  end.

(** [StartTask] on [st] gets as far as a server response, [resp]. *)
Definition StartTask_receives `{Libraries} `{World} (c : HTTPTaskClient)
    (taskID : string) (st : State) (resp : Response) : Prop :=
  exists deviceID,
    answer_VerifyDeviceID (trace st) = inr deviceID
    /\ http_NewRequest_error "POST" (start_url c taskID) = None
    /\ answer_Http (trace st ++ [CallVerifyDeviceID])
                   (start_call c taskID deviceID) = inr resp.

(** What [SaveTaskResult] does with the populated result [r], from
    serialization on, started in [st]. *)
Definition send_result `{Libraries} `{World} (c : HTTPTaskClient)
    (taskID deviceID : string) (r : TaskResult) (st : State)
  : outcome unit * State :=
  match json_Marshal_TaskResult r with
  | inl e => (Err (fmt_Errorf "failed to marshal result: " e), st)
  | inr body =>
      match http_NewRequest_error "POST" (result_url c taskID) with
      | Some e => (Err (fmt_Errorf "failed to create request: " e), st)
      | None =>
          let call := result_call c taskID deviceID body in
          let st' := record_call (CallHttp call) st in
          match answer_Http (trace st) call with
          | inl e =>
              (Err (fmt_Errorf
                      ("HTTP POST failed for " +:+ result_url c taskID +:+ ": ")
                      e), st')
          | inr resp =>
              if (StatusCode resp =? http_StatusOK)%Z then (Ok tt, st')
              else (Err (result_status_error resp), st')
          end
      end
  end.

(** The state in which the populated result [r'] is serialized: [r']
    stands where [r] stood, and the device identity and, if needed, the
    clock have been asked. *)
Definition filled_state (l : loc) (r r' : TaskResult) (st : State) : State :=
  mkState (<[l := r']> (heap st)) (trace st ++ fill_calls r).

(** A result with no default left to fill. *)
Definition populated (r : TaskResult) : Prop :=
  TaskID r <> uuid_Nil /\ Time_IsZero (CreatedAt r) = false
  /\ RunnerAddress r <> "".




Definition fl_url (c : HTTPTaskClient) : string :=
  api_root c +:+ "/api/v1/federated-learning/model-updates".

Definition fl_payload (sessionID roundID runnerID : string)
    (gradients weights : option (gmap string (option (list Z))))
    (dataSize loss accuracy trainingTime : Z) (now : Time)
  : gmap string JSONValue :=
  list_to_map
    [("session_id", JString sessionID);
     ("round_id", JString roundID);
     ("runner_id", JString runnerID);
     ("gradients", JFloatSlices gradients);
     ("weights", JFloatSlices weights);
     ("update_type", JString "gradients");
     ("data_size", JInt dataSize);
     ("loss", JFloat loss);
     ("accuracy", JFloat accuracy);
     ("training_time", JInt trainingTime);
     ("metadata",
      JObject (list_to_map [("submission_time", JInt (Time_Unix now))]))].

Definition fl_call (c : HTTPTaskClient) (body : string) : HttpCall :=
  Do (mkClient (30 * time_Second))
     (Header_Set "Content-Type" "application/json"
        (mkRequest "POST" (fl_url c) ∅ (Some body))).

(** The error [SubmitFLModelUpdate] reports for a non-200 response. *)
Definition fl_status_error `{PayloadLibraries} (resp : Response) : error :=
  match json_Unmarshal_errResp (Body resp) with
  | inr msg =>
      if negb (String.eqb msg "") then
        fmt_Errorf "FL model update server error: " msg
      else
        "FL model update unexpected status code: "
        +:+ fmt_d (StatusCode resp) +:+ ", body: " +:+ Body resp
  | inl _ =>
      "FL model update unexpected status code: "
      +:+ fmt_d (StatusCode resp) +:+ ", body: " +:+ Body resp
  end.

(** The request of a call made through [client.Do], if it is one. *)
Definition request_of (h : HttpCall) : option Request :=
  match h with
  | Do _ req => Some req
  | _ => None
  end.

(** [t] begins with [s]. *)
Fixpoint has_prefix (s t : string) : bool :=
  match s, t with
  | EmptyString, _ => true
  | String a s', String b t' => Ascii.eqb a b && has_prefix s' t'
  | String _ _, EmptyString => false
  end.

(** ** A concrete platform

    One instance of [Libraries] and a family of instances of [World],
    used to run the client on concrete inputs.  The library functions
    are implemented for the inputs the examples use: the canonical
    36-character form of a UUID, a handful of JSON documents, and the
    rule of [net/url] that rejects control characters. *)
Module Sample.

Definition hex_digit (n : N) : ascii :=
  match n with
  | 0 => "0" | 1 => "1" | 2 => "2" | 3 => "3" | 4 => "4" | 5 => "5"
  | 6 => "6" | 7 => "7" | 8 => "8" | 9 => "9" | 10 => "a" | 11 => "b"
  | 12 => "c" | 13 => "d" | 14 => "e" | _ => "f"
  end%N%char.

Definition hex_value (c : ascii) : option N :=
  let n := N_of_ascii c in
  if (48 <=? n)%N && (n <=? 57)%N then Some (n - 48)%N
  else if (97 <=? n)%N && (n <=? 102)%N then Some (n - 87)%N
  else if (65 <=? n)%N && (n <=? 70)%N then Some (n - 55)%N
  else None.

(** The [digits] lowest hexadecimal digits of [u], highest first. *)
Fixpoint to_hex (digits : nat) (u : N) : string :=
  match digits with
  | O => ""
  | S d => to_hex d (u / 16)%N +:+ String (hex_digit (u mod 16)%N) ""
  end.

Fixpoint of_hex (acc : N) (s : string) : option N :=
  match s with
  | EmptyString => Some acc
  | String c rest =>
      match hex_value c with
      | Some v => of_hex (16 * acc + v)%N rest
      | None => None
      end
  end.

Definition UUID_String (u : UUID) : string :=
  let h := to_hex 32 u in
  substring 0 8 h +:+ "-" +:+ substring 8 4 h +:+ "-"
  +:+ substring 12 4 h +:+ "-" +:+ substring 16 4 h +:+ "-"
  +:+ substring 20 12 h.

Definition Parse (s : string) : error + UUID :=
  if negb (String.length s =? 36)%nat then
    inl ("invalid UUID length: " +:+ pretty (String.length s))
  else if negb (String.eqb (substring 8 1 s) "-"
                && String.eqb (substring 13 1 s) "-"
                && String.eqb (substring 18 1 s) "-"
                && String.eqb (substring 23 1 s) "-") then
    inl "invalid UUID format"
  else
    match of_hex 0 (substring 0 8 s +:+ substring 9 4 s
                    +:+ substring 14 4 s +:+ substring 19 4 s
                    +:+ substring 24 12 s) with
    | Some u => inr u
    | None => inl "invalid UUID format"
    end.

(** A double quote, and a JSON string literal. *)
Definition dquote : string := String "034"%char "".
Definition q (s : string) : string := dquote +:+ s +:+ dquote.

Definition zero_TaskConfig : TaskConfig :=
  mkTaskConfig "" ∅ (mkResourceConfig "" 0%Z "") "" "".

Definition alpine_TaskConfig : TaskConfig :=
  mkTaskConfig "" ∅ (mkResourceConfig "" 0%Z "") "" "alpine".

(** The document [{"image_name":"alpine"}]. *)
Definition alpine_document : string :=
  "{" +:+ q "image_name" +:+ ":" +:+ q "alpine" +:+ "}".

Definition Unmarshal_TaskConfig (data : string)
  : error + TaskConfig :=
  if String.eqb data "{}" then inr zero_TaskConfig
  else if String.eqb data alpine_document then inr alpine_TaskConfig
  else inl "invalid character".

Definition first_id : string := "00000000-0000-0000-0000-000000000001".

Definition first_task : Task :=
  mkTask 1%N "build" "" TaskTypeCommand TaskStatusPending "{}" None 0%Z
         "" "" "" "" 0%Z 0%Z None.

(** The document [{"id":"0...1","title":"build","type":"command",
    "status":"pending","config":{}}]. *)
Definition first_task_document : string :=
  "{" +:+ q "id" +:+ ":" +:+ q first_id +:+ ","
  +:+ q "title" +:+ ":" +:+ q "build" +:+ ","
  +:+ q "type" +:+ ":" +:+ q "command" +:+ ","
  +:+ q "status" +:+ ":" +:+ q "pending" +:+ ","
  +:+ q "config" +:+ ":{}}".

Definition Decode_Tasks (body : string)
  : error + list (option Task) :=
  if String.eqb body "[]" then inr []
  else if String.eqb body "[null]" then inr [None]
  else if String.eqb body ("[" +:+ first_task_document +:+ "]") then
    inr [Some first_task]
  else inl "invalid character".

Definition Marshal_TaskResult (r : TaskResult) : error + string :=
  inr ("{" +:+ q "task_id" +:+ ":" +:+ q (UUID_String (TaskID r)) +:+ ","
       +:+ q "runner_address" +:+ ":" +:+ q (RunnerAddress r) +:+ ","
       +:+ q "created_at" +:+ ":" +:+ pretty (CreatedAt r) +:+ ","
       +:+ q "exit_code" +:+ ":" +:+ pretty (ExitCode r) +:+ ","
       +:+ q "logs" +:+ ":" +:+ q (Logs r) +:+ "}").

(** The document [{"error":"quota exceeded"}]. *)
Definition quota_document : string :=
  "{" +:+ q "error" +:+ ":" +:+ q "quota exceeded" +:+ "}".

Definition Decode_errResp (body : string) : error + string :=
  if String.eqb body "{}" then inr ""
  else if String.eqb body quota_document then inr "quota exceeded"
  else inl "invalid character".

Fixpoint has_control_character (s : string) : bool :=
  match s with
  | EmptyString => false
  | String c rest =>
      (N_of_ascii c <? 32)%N || (N_of_ascii c =? 127)%N
      || has_control_character rest
  end.

Definition NewRequest_error (method url : string) : option error :=
  if has_control_character url then
    Some "net/url: invalid control character in URL"
  else None.

Definition libraries : Libraries :=
  {| json_Unmarshal_TaskConfig := Unmarshal_TaskConfig;
     json_Decode_Tasks := Decode_Tasks;
     json_Marshal_TaskResult := Marshal_TaskResult;
     json_Decode_errResp := Decode_errResp;
     uuid_Parse := Parse;
     uuid_String := UUID_String;
     http_NewRequest_error := NewRequest_error |}.

(** A world whose answers do not depend on the history. *)
Definition world (device : error + string) (now : Time)
                 (server : HttpCall -> error + Response) : World :=
  {| answer_VerifyDeviceID := fun _ => device;
     answer_Now := fun _ => now;
     answer_Http := fun _ h => server h |}.

(** A server that answers every request with the same response. *)
Definition always (code : Z) (body : string)
  : HttpCall -> error + Response :=
  fun _ => inr (mkResponse code body).


Definition client : HTTPTaskClient :=
  NewHTTPTaskClient "http://localhost:8080/api".

Definition empty_state : State := mkState ∅ [].

(** A fresh result with every default absent, at location 1. *)
Definition blank_result : TaskResult := mkTaskResult 0%N "" 0%Z 0%Z "ok" [].
Definition blank_state : State := mkState {[ 1%positive := blank_result ]} [].

(** Worlds for the examples: a server on which every step succeeds and
    whose queue holds [first_task]; one whose queue is the JSON array
    [[null]]; one on which the task is already taken; and a host
    without a device identity. *)
Definition queue_server (queue : string) (h : HttpCall)
  : error + Response :=
  match h with
  | Get _ => inr (mkResponse 200%Z queue)
  | _ => inr (mkResponse 200%Z "{}")
  end.

Definition happy : World :=
  world (inr "runner-7") 1700000000%Z
        (queue_server ("[" +:+ first_task_document +:+ "]")).
Definition null_queue : World :=
  world (inr "runner-7") 1700000000%Z (queue_server "[null]").
Definition contended : World :=
  world (inr "runner-7") 1700000000%Z (always 409%Z "taken").

(** A docker task whose config names an image but which has no
    environment descriptor. *)
Definition docker_task_without_environment : Task :=
  mkTask 2%N "train" "" TaskTypeDocker TaskStatusPending alpine_document
         None 0%Z "" "" "" "n-1" 0%Z 0%Z None.

(** The further libraries: an encoder that, like [encoding/json],
    refuses a payload holding a [float64] that is not finite (exponent
    bits all ones) and otherwise answers with a rendering of the keys;
    the strict decoder of error bodies; a random source. *)
Definition not_finite (v : JSONValue) : bool :=
  match v with
  | JFloat bits => ((bits / 2 ^ 52) mod 2048 =? 2047)%Z
  | _ => false
  end.

Definition Marshal_payload (m : gmap string JSONValue) : error + string :=
  if existsb (fun kv => not_finite (snd kv)) (map_to_list m) then
    inl "json: unsupported value"
  else
    inr ("{" +:+ String.concat "," (map (fun kv => q (fst kv))
                                        (map_to_list m)) +:+ "}").

Definition payload_libraries : PayloadLibraries :=
  {| json_Marshal_payload := Marshal_payload;
     json_Unmarshal_errResp := Decode_errResp |}.

Definition entropy : Entropy :=
  {| answer_uuid_NewRandom := fun _ => inr 7%N |}.

(** A server that refuses everything with the quota message, and one
    that refuses with a body that is not JSON. *)
Definition over_quota : World :=
  world (inr "runner-7") 1700000000%Z (always 429%Z quota_document).
Definition broken_gateway : World :=
  world (inr "runner-7") 1700000000%Z (always 502%Z "Bad Gateway").

(** A host that has lost its device identity, facing a server that
    accepts everything. *)
Definition identity_lost : World :=
  world (inl "device ID not found") 1700000000%Z (always 200%Z "{}").

(** A result with nothing left to fill, at location 1. *)
Definition full_result : TaskResult :=
  mkTaskResult 9%N "runner-3" 1600000000%Z 0%Z "ok" [].
Definition full_state : State := mkState {[ 1%positive := full_result ]} [].

End Sample.

(** * Properties of the task model *)

(** C1. For every task type [T], [TaskConfig.Validate(T)] returns nil
    exactly when [T] is one of docker, command, llm,
    federated_learning and, if [T] is docker, [ImageName] is not
    empty; for every [T] outside the enumeration it returns the
    "unsupported task type" validation error. *)
Theorem TaskConfig_Validate_iff (c : TaskConfig) (T : TaskType) :
  (TaskConfig_Validate c T = None <->
     recognized T /\ (T = TaskTypeDocker -> ImageName c <> ""))
  /\ (~ recognized T ->
      TaskConfig_Validate c T
      = Some (fmt_Errorf "unsupported task type: " T)).
Proof.
  unfold TaskConfig_Validate, recognized.
  destruct (String.eqb_spec T TaskTypeDocker) as [->|Hd].
  - destruct (String.eqb_spec (ImageName c) "") as [Hi|Hi].
    + split; [split; [discriminate | intros [_ Hn]; now elim Hn] | tauto].
    + split; [split; [tauto | reflexivity] | tauto].
  - destruct (String.eqb_spec T TaskTypeCommand) as [->|Hc];
      [split; [split; [tauto | reflexivity] | tauto]|].
    destruct (String.eqb_spec T TaskTypeLLM) as [->|Hl];
      [split; [split; [tauto | reflexivity] | tauto]|].
    destruct (String.eqb_spec T TaskTypeFederatedLearning) as [->|Hf];
      [split; [split; [tauto | reflexivity] | tauto]|].
    split; [split; [discriminate | tauto] | reflexivity].
Qed.

(** Closes the goals left once the failing check is known. *)
Ltac validate_cases :=
  solve [repeat (split || intro); try tauto; congruence].

Section TaskValidate.
Context `{Libraries}.

(** C2. [Task.Validate()] checks, in this order, an empty [Title], an
    empty [Type], a [Config] that does not decode, the decoded
    config against the task's [Type], and for a docker task a nil or
    non-docker [Environment]; it returns the error of the first check
    that fails and nil when none does.  An empty [Title] fails
    whatever the other fields are, and a docker task without a docker
    environment fails whatever its config holds. *)
Theorem Task_Validate_first_failure (t : Task) :
  (Task_Title t = "" ->
     Task_Validate t = Some (errors_New "title is required"))
  /\ (Task_Title t <> "" -> Task_Type t = "" ->
      Task_Validate t = Some (errors_New "task type is required"))
  /\ (Task_Title t <> "" -> Task_Type t <> "" ->
      forall err, json_Unmarshal_TaskConfig (Task_Config t) = inl err ->
      Task_Validate t
      = Some (fmt_Errorf "failed to unmarshal task config: " err))
  /\ (Task_Title t <> "" -> Task_Type t <> "" ->
      forall config err,
      json_Unmarshal_TaskConfig (Task_Config t) = inr config ->
      TaskConfig_Validate config (Task_Type t) = Some err ->
      Task_Validate t = Some err)
  /\ (Task_Title t <> "" -> Task_Type t <> "" ->
      forall config,
      json_Unmarshal_TaskConfig (Task_Config t) = inr config ->
      TaskConfig_Validate config (Task_Type t) = None ->
      (Task_Type t = TaskTypeDocker -> no_docker_environment t ->
       Task_Validate t
       = Some (errors_New
           "docker environment configuration is required for docker tasks"))
      /\ (~ (Task_Type t = TaskTypeDocker /\ no_docker_environment t) ->
          Task_Validate t = None))
  /\ (Task_Type t = TaskTypeDocker -> no_docker_environment t ->
      Task_Validate t <> None).
Proof.
  unfold Task_Validate.
  destruct (String.eqb_spec (Task_Title t) "") as [Ht|Ht];
    [validate_cases|].
  destruct (String.eqb_spec (Task_Type t) "") as [Hty|Hty];
    [validate_cases|].
  destruct (json_Unmarshal_TaskConfig (Task_Config t)) as [uerr|config];
    [validate_cases|].
  destruct (TaskConfig_Validate config (Task_Type t)) as [verr|] eqn:Ev;
    [validate_cases|].
  destruct (String.eqb_spec (Task_Type t) TaskTypeDocker) as [Hd|Hd]; simpl;
    [|validate_cases].
  unfold no_docker_environment.
  destruct (Task_Environment t) as [env|]; [|validate_cases].
  destruct (String.eqb_spec (Environment_Type env) "docker"); simpl;
    validate_cases.
Qed.

(** C8, as the code has it. [Task.Validate()] never reads [Nonce]:
    replacing the nonce of a task, by the empty string or by anything
    else, leaves the verdict unchanged. *)
Theorem Task_Validate_ignores_Nonce (t : Task) (nonce : string) :
  Task_Validate (with_Nonce nonce t) = Task_Validate t.
Proof. reflexivity. Qed.
End TaskValidate.

(** * Properties of the task client *)

(** [strings.TrimSuffix] removes a suffix that is there, and the API
    root of a client configured with or without "/api" is the same. *)
Lemma substring_append_left (s t : string) :
  substring 0 (String.length s) (s +:+ t) = s.
Proof. induction s as [|a s IH]; simpl; [now destruct t | now rewrite IH]. Qed.

Lemma substring_whole (t : string) : substring 0 (String.length t) t = t.
Proof. induction t as [|b t IH]; simpl; [reflexivity | now rewrite IH]. Qed.

Lemma substring_append_right (s t : string) :
  substring (String.length s) (String.length t) (s +:+ t) = t.
Proof.
  induction s as [|a s IH]; simpl; [apply substring_whole | exact IH].
Qed.

Lemma String_length_append (s t : string) :
  String.length (s +:+ t) = String.length s + String.length t.
Proof. induction s as [|a s IH]; simpl; [reflexivity | now rewrite IH]. Qed.

Lemma strings_TrimSuffix_append (s suffix : string) :
  strings_TrimSuffix (s +:+ suffix) suffix = s.
Proof.
  unfold strings_TrimSuffix, strings_HasSuffix.
  assert (Hlen : String.length (s +:+ suffix) - String.length suffix
                 = String.length s).
  { rewrite String_length_append. lia. }
  rewrite Hlen, substring_append_right, String.eqb_refl.
  rewrite substring_append_left.
  destruct (Nat.leb_spec (String.length suffix)
                         (String.length (s +:+ suffix)));
    [reflexivity|]. rewrite String_length_append in *. lia.
Qed.

Example api_root_with_suffix :
  api_root (NewHTTPTaskClient "http://localhost:8080/api")
  = "http://localhost:8080".
Proof. reflexivity. Qed.

Example api_root_without_suffix :
  api_root (NewHTTPTaskClient "http://localhost:8080")
  = "http://localhost:8080".
Proof. reflexivity. Qed.

Example unexpected_status_503 :
  unexpected_status 503 = "unexpected status code: 503".
Proof. reflexivity. Qed.

Example Sample_UUID_round_trip :
  Sample.Parse (Sample.UUID_String 1%N) = inr 1%N
  /\ Sample.UUID_String 1%N = "00000000-0000-0000-0000-000000000001".
Proof. split; reflexivity. Qed.

Lemma http_calls_app (a b : list Call) :
  http_calls (a ++ b) = http_calls a ++ http_calls b.
Proof. unfold http_calls. apply flat_map_app. Qed.

Section ClientRuns.
Context `{Libraries} `{World}.

(** [GetAvailableTasks] makes one call, the GET, and touches no memory. *)
Lemma GetAvailableTasks_state c st o st1 :
  GetAvailableTasks c st = (o, st1) ->
  st1 = record_call (CallHttp (Get (available_url c))) st.
Proof.
  unfold GetAvailableTasks, bind, http_Get, http_call, check, throw, ret;
    simpl.
  fold (api_root c). fold (available_url c).
  destruct (answer_Http (trace st) (Get (available_url c))) as [e|resp];
    simpl; [congruence|].
  destruct (StatusCode resp =? http_StatusOK)%Z; simpl; [|congruence].
  destruct (json_Decode_Tasks (Body resp)); simpl; congruence.
Qed.

(** [CompleteTask] makes one call, the POST, and touches no memory;
    it never panics. *)
Lemma CompleteTask_state c taskID st o st1 :
  CompleteTask c taskID st = (o, st1) ->
  st1 = record_call (CallHttp (complete_call c taskID)) st
  /\ (o = Ok tt \/ exists e, o = Err e).
Proof.
  unfold CompleteTask, bind, http_Post, http_call, check, throw, ret;
    simpl.
  fold (api_root c). fold (complete_url c taskID).
  fold (complete_call c taskID).
  destruct (answer_Http (trace st) (complete_call c taskID)) as [e|resp];
    simpl.
  { intros [= <- <-]. eauto. }
  destruct (StatusCode resp =? http_StatusOK)%Z; simpl;
    intros [= <- <-]; eauto.
Qed.

(** What [StartTask] returns once the server has answered. *)
Lemma StartTask_reply c taskID st resp :
  StartTask_receives c taskID st resp ->
  fst (StartTask c taskID st)
  = if (StatusCode resp =? 200)%Z then Ok tt
    else if (StatusCode resp =? 409)%Z then
      Err ("task unavailable: " +:+ Body resp)
    else if (StatusCode resp =? 400)%Z then
      Err ("bad request: " +:+ Body resp)
    else if (StatusCode resp =? 404)%Z then Err "task not found"
    else Err ("unexpected status code: " +:+ fmt_d (StatusCode resp)
              +:+ ", body: " +:+ Body resp).
Proof.
  intros (deviceID & Hdev & Hreq & Hresp).
  unfold StartTask, bind, deviceid_VerifyDeviceID, Client_Do, http_call,
    check, http_NewRequest, throw, ret; simpl.
  fold (api_root c). fold (start_url c taskID).
  rewrite Hdev; simpl. rewrite Hreq; simpl.
  fold (start_call c taskID deviceID). rewrite Hresp; simpl.
  unfold http_StatusOK, http_StatusConflict, http_StatusBadRequest,
    http_StatusNotFound.
  repeat (destruct (_ =? _)%Z; [reflexivity|]). reflexivity.
Qed.

Lemma StartTask_device_error c taskID st err :
  answer_VerifyDeviceID (trace st) = inl err ->
  StartTask c taskID st
  = (Err (fmt_Errorf "failed to get device ID: " err),
     record_call CallVerifyDeviceID st).
Proof.
  intros Hdev.
  unfold StartTask, bind, deviceid_VerifyDeviceID, check, throw; simpl.
  now rewrite Hdev.
Qed.
End ClientRuns.

Lemma bind_Ok {A B} (m : M A) (k : A -> M B) st a st' :
  m st = (Ok a, st') -> bind m k st = k a st'.
Proof. unfold bind. now intros ->. Qed.

Lemma bind_Err {A B} (m : M A) (k : A -> M B) st e st' :
  m st = (Err e, st') -> bind m k st = (Err e, st').
Proof. unfold bind. now intros ->. Qed.

Lemma bind_Panic {A B} (m : M A) (k : A -> M B) st msg st' :
  m st = (Panic msg, st') -> bind m k st = (Panic msg, st').
Proof. unfold bind. now intros ->. Qed.

Lemma TaskResult_eta (r : TaskResult) :
  mkTaskResult (TaskID r) (RunnerAddress r) (CreatedAt r) (ExitCode r)
               (Logs r) (OutputArtifacts r) = r.
Proof. now destruct r. Qed.

Section SaveTaskResultRuns.
Context `{Libraries} `{World}.

Lemma fill_TaskID_run taskID l r u st :
  heap st !! l = Some r ->
  (TaskID r = uuid_Nil -> uuid_Parse taskID = inr u) ->
  fill_TaskID taskID (Some l) st
  = (Ok tt,
     mkState (<[l := mkTaskResult
                       (if (TaskID r =? uuid_Nil)%N then u else TaskID r)
                       (RunnerAddress r) (CreatedAt r) (ExitCode r)
                       (Logs r) (OutputArtifacts r)]> (heap st))
             (trace st)).
Proof.
  intros Hl Hparse.
  unfold fill_TaskID, bind, load, store, uuid_MustParse, ret. rewrite Hl.
  destruct (N.eqb_spec (TaskID r) uuid_Nil) as [Hnil|Hnil].
  - now rewrite (Hparse Hnil).
  - rewrite TaskResult_eta, insert_id by done. now destruct st.
Qed.

Lemma fill_TaskID_panic taskID l r perr st :
  heap st !! l = Some r -> TaskID r = uuid_Nil ->
  uuid_Parse taskID = inl perr ->
  fill_TaskID taskID (Some l) st
  = (Panic ("uuid: Parse(" +:+ taskID +:+ "): " +:+ perr), st).
Proof.
  intros Hl Hnil Hparse.
  unfold fill_TaskID, bind, load, uuid_MustParse, panic.
  now rewrite Hl, Hnil, Hparse.
Qed.

Lemma fill_CreatedAt_run l r st :
  heap st !! l = Some r ->
  fill_CreatedAt (Some l) st
  = (Ok tt,
     mkState (<[l := mkTaskResult (TaskID r) (RunnerAddress r)
                       (if Time_IsZero (CreatedAt r)
                        then answer_Now (trace st) else CreatedAt r)
                       (ExitCode r) (Logs r) (OutputArtifacts r)]> (heap st))
             (trace st
              ++ (if Time_IsZero (CreatedAt r) then [CallNow] else []))).
Proof.
  intros Hl.
  unfold fill_CreatedAt, bind, load, store, time_Now, ret. rewrite Hl.
  destruct (Time_IsZero (CreatedAt r)).
  - reflexivity.
  - rewrite TaskResult_eta, insert_id, app_nil_r by done. now destruct st.
Qed.

Lemma fill_RunnerAddress_run deviceID l r st :
  heap st !! l = Some r ->
  fill_RunnerAddress deviceID (Some l) st
  = (Ok tt,
     mkState (<[l := mkTaskResult (TaskID r)
                       (if String.eqb (RunnerAddress r) ""
                        then deviceID else RunnerAddress r)
                       (CreatedAt r) (ExitCode r) (Logs r)
                       (OutputArtifacts r)]> (heap st))
             (trace st)).
Proof.
  intros Hl.
  unfold fill_RunnerAddress, bind, load, store, ret. rewrite Hl.
  destruct (String.eqb (RunnerAddress r) "").
  - reflexivity.
  - rewrite TaskResult_eta, insert_id by done. now destruct st.
Qed.
End SaveTaskResultRuns.

Section SaveTaskResultWhole.
Context `{Libraries} `{World}.

Lemma SaveTaskResult_run c taskID l r deviceID u st :
  heap st !! l = Some r ->
  answer_VerifyDeviceID (trace st) = inr deviceID ->
  (TaskID r = uuid_Nil -> uuid_Parse taskID = inr u) ->
  SaveTaskResult c taskID (Some l) st
  = let r' := fill_defaults u (answer_Now (trace st ++ [CallVerifyDeviceID]))
                            deviceID r in
    send_result c taskID deviceID r' (filled_state l r r' st).
Proof.
  intros Hl Hdev Hparse.
  unfold SaveTaskResult.
  erewrite bind_Ok by reflexivity.
  rewrite Hdev.
  erewrite bind_Ok by reflexivity.
  erewrite bind_Ok by (apply fill_TaskID_run; [exact Hl | exact Hparse]).
  erewrite bind_Ok
    by (apply fill_CreatedAt_run; simpl; apply lookup_insert_eq).
  erewrite bind_Ok
    by (apply fill_RunnerAddress_run; simpl; apply lookup_insert_eq).
  erewrite bind_Ok
    by (unfold load; simpl; rewrite lookup_insert_eq; reflexivity).
  rewrite !insert_insert_eq, <- app_assoc.
  unfold send_result, filled_state, fill_defaults, fill_calls,
    result_status_error, unexpected_status, result_call, result_url,
    api_root.
  unfold bind, check, throw, ret, http_NewRequest, Client_Do, http_call;
    simpl.
  destruct (json_Marshal_TaskResult _) as [e|body]; simpl; [reflexivity|].
  destruct (http_NewRequest_error _ _) as [e|]; simpl; [reflexivity|].
  destruct (answer_Http _ _) as [e|resp]; simpl; [reflexivity|].
  destruct (StatusCode resp =? http_StatusOK)%Z; simpl; [reflexivity|].
  destruct (json_Decode_errResp (Body resp)) as [e|msg]; [reflexivity|].
  destruct (String.eqb msg ""); reflexivity.
Qed.

Lemma SaveTaskResult_device_error c taskID p st err :
  answer_VerifyDeviceID (trace st) = inl err ->
  SaveTaskResult c taskID p st
  = (Err (fmt_Errorf "failed to get device ID: " err),
     record_call CallVerifyDeviceID st).
Proof.
  intros Hdev. unfold SaveTaskResult.
  erewrite bind_Ok by reflexivity. rewrite Hdev. reflexivity.
Qed.

Lemma SaveTaskResult_no_object c taskID p deviceID st :
  answer_VerifyDeviceID (trace st) = inr deviceID ->
  match p with None => True | Some l => heap st !! l = None end ->
  SaveTaskResult c taskID p st
  = (Panic nil_dereference, record_call CallVerifyDeviceID st).
Proof.
  intros Hdev Hp. unfold SaveTaskResult.
  erewrite bind_Ok by reflexivity. rewrite Hdev.
  erewrite bind_Ok by reflexivity.
  apply bind_Panic. unfold fill_TaskID. apply bind_Panic.
  unfold load. destruct p as [l|]; [|reflexivity].
  simpl. now rewrite Hp.
Qed.

Lemma SaveTaskResult_bad_id c taskID l r deviceID perr st :
  heap st !! l = Some r -> TaskID r = uuid_Nil ->
  uuid_Parse taskID = inl perr ->
  answer_VerifyDeviceID (trace st) = inr deviceID ->
  SaveTaskResult c taskID (Some l) st
  = (Panic ("uuid: Parse(" +:+ taskID +:+ "): " +:+ perr),
     record_call CallVerifyDeviceID st).
Proof.
  intros Hl Hnil Hparse Hdev. unfold SaveTaskResult.
  erewrite bind_Ok by reflexivity. rewrite Hdev.
  erewrite bind_Ok by reflexivity.
  apply bind_Panic. now apply fill_TaskID_panic with (r := r).
Qed.

(** Every run of [SaveTaskResult] is of one of three kinds. *)
Lemma SaveTaskResult_cases c taskID p st :
  (exists err,
      answer_VerifyDeviceID (trace st) = inl err
      /\ SaveTaskResult c taskID p st
         = (Err (fmt_Errorf "failed to get device ID: " err),
            record_call CallVerifyDeviceID st))
  \/ (exists msg,
        SaveTaskResult c taskID p st
        = (Panic msg, record_call CallVerifyDeviceID st))
  \/ (exists l r deviceID u,
        p = Some l /\ heap st !! l = Some r
        /\ answer_VerifyDeviceID (trace st) = inr deviceID
        /\ (TaskID r = uuid_Nil -> uuid_Parse taskID = inr u)
        /\ let r' := fill_defaults u
                       (answer_Now (trace st ++ [CallVerifyDeviceID]))
                       deviceID r in
           SaveTaskResult c taskID p st
           = send_result c taskID deviceID r' (filled_state l r r' st)).
Proof.
  destruct (answer_VerifyDeviceID (trace st)) as [err|deviceID] eqn:Hdev.
  { left. exists err. split; [reflexivity|].
    now apply SaveTaskResult_device_error. }
  right.
  destruct p as [l|];
    [|left; eexists; now apply SaveTaskResult_no_object with deviceID].
  destruct (heap st !! l) as [r|] eqn:Hl;
    [|left; eexists; now apply SaveTaskResult_no_object with deviceID].
  destruct (N.eq_dec (TaskID r) uuid_Nil) as [Hnil|Hnil].
  - destruct (uuid_Parse taskID) as [perr|u] eqn:Hparse.
    + left. eexists.
      apply (SaveTaskResult_bad_id c taskID l r deviceID perr st);
        assumption.
    + right. exists l, r, deviceID, u. repeat split; try assumption.
      now apply SaveTaskResult_run.
  - right. exists l, r, deviceID, (TaskID r).
    repeat split; try assumption; [congruence|].
    apply SaveTaskResult_run; [assumption..|congruence].
Qed.

(** [send_result] leaves memory alone and makes at most one call. *)
Lemma send_result_cases c taskID deviceID r st o st' :
  send_result c taskID deviceID r st = (o, st') ->
  heap st' = heap st
  /\ ((exists e, o = Err e /\ st' = st)
      \/ (exists body,
            json_Marshal_TaskResult r = inr body
            /\ http_NewRequest_error "POST" (result_url c taskID) = None
            /\ st' = record_call
                       (CallHttp (result_call c taskID deviceID body)) st)).
Proof.
  unfold send_result.
  destruct (json_Marshal_TaskResult r) as [e|body].
  { intros [= <- <-]. split; [reflexivity|]. left. eauto. }
  destruct (http_NewRequest_error "POST" (result_url c taskID)) as [e|].
  { intros [= <- <-]. split; [reflexivity|]. left. eauto. }
  intros Hrun. split.
  - destruct (answer_Http _ _) as [e|resp];
      [|destruct (StatusCode resp =? http_StatusOK)%Z];
      injection Hrun as <- <-; reflexivity.
  - right. exists body. repeat split.
    destruct (answer_Http _ _) as [e|resp];
      [|destruct (StatusCode resp =? http_StatusOK)%Z];
      injection Hrun as <- <-; reflexivity.
Qed.
End SaveTaskResultWhole.

Section ClientClaims.
Context `{Libraries} `{World}.

Lemma UpdateTaskStatus_terminal c taskID status result st :
  status = TaskStatusCompleted \/ status = TaskStatusFailed ->
  UpdateTaskStatus c taskID status result st
  = bind (CompleteTask c taskID)
         (fun _ => match result with
                   | Some _ => SaveTaskResult c taskID result
                   | None => ret tt
                   end) st.
Proof. now intros [-> | ->]. Qed.

Lemma SaveTaskResult_Ok_calls c taskID p st st' :
  SaveTaskResult c taskID p st = (Ok tt, st') ->
  exists deviceID body,
    http_calls (trace st')
    = http_calls (trace st) ++ [result_call c taskID deviceID body].
Proof.
  intros Hrun.
  destruct (SaveTaskResult_cases c taskID p st)
    as [(err & _ & E) | [(msg & E) | (l & r & d & u & _ & _ & _ & _ & E)]];
    try congruence.
  cbv zeta in E. rewrite E in Hrun.
  apply send_result_cases in Hrun
    as (_ & [(e & ? & _) | (body & _ & _ & ->)]); [discriminate|].
  exists d, body. unfold record_call, filled_state, fill_calls; simpl.
  rewrite !http_calls_app; simpl.
  destruct (Time_IsZero (CreatedAt r)); simpl; now rewrite app_nil_r.
Qed.

(** Whatever its outcome, [SaveTaskResult] sends at most one request,
    the POST of the result. *)
Lemma SaveTaskResult_calls c taskID p st o st' :
  SaveTaskResult c taskID p st = (o, st') ->
  http_calls (trace st') = http_calls (trace st)
  \/ exists deviceID body,
       http_calls (trace st')
       = http_calls (trace st) ++ [result_call c taskID deviceID body].
Proof.
  intros Hrun.
  assert (Hfill : forall l r r',
             http_calls (trace (filled_state l r r' st))
             = http_calls (trace st)).
  { intros l r r'. unfold filled_state, fill_calls; simpl.
    rewrite http_calls_app; simpl.
    destruct (Time_IsZero (CreatedAt r)); simpl; now rewrite app_nil_r. }
  destruct (SaveTaskResult_cases c taskID p st)
    as [(err & _ & E) | [(msg & E) | (l & r & d & u & _ & _ & _ & _ & E)]].
  - left. rewrite E in Hrun. injection Hrun as _ <-. simpl.
    rewrite http_calls_app; simpl. now rewrite app_nil_r.
  - left. rewrite E in Hrun. injection Hrun as _ <-. simpl.
    rewrite http_calls_app; simpl. now rewrite app_nil_r.
  - cbv zeta in E. rewrite E in Hrun.
    apply send_result_cases in Hrun
      as (_ & [(e & _ & ->) | (body & _ & _ & ->)]).
    + left. apply Hfill.
    + right. exists d, body. unfold record_call. cbn [trace].
      now rewrite http_calls_app, Hfill.
Qed.

(** C3. With status completed or failed, [UpdateTaskStatus] calls
    [CompleteTask] first; when that fails its error is returned and
    nothing else is done; when it succeeds and the result is nil the
    call is over, after exactly one request; when it succeeds and the
    result is not nil, [SaveTaskResult] runs next, and a successful
    run has made exactly two requests, complete then result; no run
    sends anything before the complete request or more than the
    result request after it.  With
    any status other than running, completed or failed it returns the
    "unsupported status" error and leaves the state as it was: no
    call, no write. *)
Theorem UpdateTaskStatus_complete_then_save c taskID status result st :
  (status = TaskStatusCompleted \/ status = TaskStatusFailed ->
     (forall e st1,
         CompleteTask c taskID st = (Err e, st1) ->
         UpdateTaskStatus c taskID status result st = (Err e, st1)
         /\ st1 = record_call (CallHttp (complete_call c taskID)) st)
     /\ (forall st1,
           CompleteTask c taskID st = (Ok tt, st1) ->
           st1 = record_call (CallHttp (complete_call c taskID)) st
           /\ match result with
              | None =>
                  UpdateTaskStatus c taskID status result st = (Ok tt, st1)
              | Some _ =>
                  UpdateTaskStatus c taskID status result st
                  = SaveTaskResult c taskID result st1
                  /\ (forall st',
                        UpdateTaskStatus c taskID status result st
                        = (Ok tt, st') ->
                        exists deviceID body,
                          http_calls (trace st')
                          = http_calls (trace st)
                            ++ [complete_call c taskID;
                                result_call c taskID deviceID body])
              end)
     /\ (result = None ->
         UpdateTaskStatus c taskID status result st
         = CompleteTask c taskID st
         /\ snd (UpdateTaskStatus c taskID status result st)
            = record_call (CallHttp (complete_call c taskID)) st)
     /\ (forall o st',
           UpdateTaskStatus c taskID status result st = (o, st') ->
           exists rest,
             http_calls (trace st')
             = http_calls (trace st) ++ complete_call c taskID :: rest
             /\ (rest = []
                 \/ exists deviceID body,
                      result <> None
                      /\ rest = [result_call c taskID deviceID body])))
  /\ (status <> TaskStatusRunning -> status <> TaskStatusCompleted ->
      status <> TaskStatusFailed ->
      UpdateTaskStatus c taskID status result st
      = (Err (fmt_Errorf "unsupported status: " status), st)).
Proof.
  split.
  - intros Hterminal.
    pose proof (UpdateTaskStatus_terminal c taskID status result st Hterminal)
      as Hupd.
    split; [|split; [|split]].
    + intros e st1 Hc. split.
      * rewrite Hupd. now apply bind_Err.
      * now apply CompleteTask_state in Hc.
    + intros st1 Hc.
      pose proof (CompleteTask_state _ _ _ _ _ Hc) as [Hst1 _].
      split; [exact Hst1|].
      destruct result as [l|].
      * assert (Hsave : UpdateTaskStatus c taskID status (Some l) st
                        = SaveTaskResult c taskID (Some l) st1)
          by (rewrite Hupd; now erewrite bind_Ok by exact Hc).
        split; [exact Hsave|].
        intros st' Hok. rewrite Hsave in Hok.
        apply SaveTaskResult_Ok_calls in Hok as (d & body & ->).
        exists d, body. rewrite Hst1. unfold record_call; simpl.
        now rewrite http_calls_app, <- app_assoc.
      * rewrite Hupd. now erewrite bind_Ok by exact Hc.
    + intros ->. rewrite Hupd. unfold bind.
      destruct (CompleteTask c taskID st) as [[[]|e|msg] st1] eqn:E;
        (split; [reflexivity | now apply CompleteTask_state in E]).
    + intros o st' Hrun. rewrite Hupd in Hrun. unfold bind in Hrun.
      assert (Hone : forall st1,
                 st1 = record_call (CallHttp (complete_call c taskID)) st ->
                 http_calls (trace st1)
                 = http_calls (trace st) ++ [complete_call c taskID]).
      { intros st1 ->. simpl. now rewrite http_calls_app. }
      destruct (CompleteTask c taskID st) as [[[]|e|msg] st1] eqn:Hc;
        apply CompleteTask_state in Hc as [Hst1 _];
        try (injection Hrun as _ <-; exists []; split; [auto | now left]).
      destruct result as [l|].
      * apply SaveTaskResult_calls in Hrun as [-> | (d & body & ->)].
        -- exists []. split; [auto | now left].
        -- exists [result_call c taskID d body]. rewrite (Hone _ Hst1).
           split; [now rewrite <- app_assoc | right; now exists d, body].
      * injection Hrun as _ <-. exists []. split; [auto | now left].
  - intros Hr Hc Hf. unfold UpdateTaskStatus.
    apply String.eqb_neq in Hr, Hc, Hf. now rewrite Hr, Hc, Hf.
Qed.

(** C4, as the code has it. When [GetAvailableTasks] returns an empty
    list, [FetchTask] returns the "no tasks available" error having
    made the GET and nothing else; when the list starts with a
    non-nil task it calls [StartTask] on that task's id and returns
    the task if the claim succeeds, the claim's error if not; an
    error of [GetAvailableTasks] is returned as it is. *)
Theorem FetchTask_claims_first c st :
  (forall st1,
      GetAvailableTasks c st = (Ok [], st1) ->
      FetchTask c st = (Err (errors_New "no tasks available"), st1)
      /\ st1 = record_call (CallHttp (Get (available_url c))) st)
  /\ (forall t rest st1,
        GetAvailableTasks c st = (Ok (Some t :: rest), st1) ->
        (forall st2,
            StartTask c (uuid_String (Task_ID t)) st1 = (Ok tt, st2) ->
            FetchTask c st = (Ok t, st2))
        /\ (forall e st2,
              StartTask c (uuid_String (Task_ID t)) st1 = (Err e, st2) ->
              FetchTask c st = (Err e, st2)))
  /\ (forall e st1,
        GetAvailableTasks c st = (Err e, st1) ->
        FetchTask c st = (Err e, st1)).
Proof.
  unfold FetchTask. split; [|split].
  - intros st1 Hget. split.
    + now erewrite bind_Ok by exact Hget.
    + now apply GetAvailableTasks_state in Hget.
  - intros t rest st1 Hget. split.
    + intros st2 Hstart. erewrite bind_Ok by exact Hget. simpl.
      erewrite bind_Ok by reflexivity. now erewrite bind_Ok by exact Hstart.
    + intros e st2 Hstart. erewrite bind_Ok by exact Hget. simpl.
      erewrite bind_Ok by reflexivity. now apply bind_Err.
  - intros e st1 Hget. now apply bind_Err.
Qed.

(** C6. [UpdateTaskStatus(id, running, result)] is [StartTask(id)]:
    the same outcome and the same final state, hence the same calls,
    whatever [result] is. *)
Theorem UpdateTaskStatus_running_is_StartTask c taskID result st :
  UpdateTaskStatus c taskID TaskStatusRunning result st
  = StartTask c taskID st.
Proof. reflexivity. Qed.
End ClientClaims.

Section StartTaskClaims.
Context `{L : Libraries}.

(** C5. [StartTask] fails when device-identity resolution fails;
    once the server has answered, status 200 gives success, 409 the
    "task unavailable" error, 400 the "bad request" error, 404 the
    "task not found" error and any other status the "unexpected
    status code" error that carries the status and the body.  Two
    runs that return the same outcome were answered with statuses of
    the same kind, so the 409, 400, 404 and other-status errors (and
    success) can be told apart. *)
Theorem StartTask_status_mapping :
  (forall (W : World) c taskID st err,
      answer_VerifyDeviceID (trace st) = inl err ->
      fst (StartTask c taskID st)
      = Err (fmt_Errorf "failed to get device ID: " err))
  /\ (forall (W : World) c taskID st resp,
        StartTask_receives c taskID st resp ->
        (StatusCode resp = 200%Z -> fst (StartTask c taskID st) = Ok tt)
        /\ (StatusCode resp = 409%Z ->
            fst (StartTask c taskID st)
            = Err ("task unavailable: " +:+ Body resp))
        /\ (StatusCode resp = 400%Z ->
            fst (StartTask c taskID st)
            = Err ("bad request: " +:+ Body resp))
        /\ (StatusCode resp = 404%Z ->
            fst (StartTask c taskID st) = Err "task not found")
        /\ (StatusCode resp <> 200%Z -> StatusCode resp <> 409%Z ->
            StatusCode resp <> 400%Z -> StatusCode resp <> 404%Z ->
            fst (StartTask c taskID st)
            = Err ("unexpected status code: " +:+ fmt_d (StatusCode resp)
                   +:+ ", body: " +:+ Body resp)))
  /\ (forall (W1 W2 : World) c1 c2 taskID1 taskID2 st1 st2 resp1 resp2,
        @StartTask_receives L W1 c1 taskID1 st1 resp1 ->
        @StartTask_receives L W2 c2 taskID2 st2 resp2 ->
        fst (@StartTask L W1 c1 taskID1 st1)
        = fst (@StartTask L W2 c2 taskID2 st2) ->
        (StatusCode resp1 = 200%Z <-> StatusCode resp2 = 200%Z)
        /\ (StatusCode resp1 = 409%Z <-> StatusCode resp2 = 409%Z)
        /\ (StatusCode resp1 = 400%Z <-> StatusCode resp2 = 400%Z)
        /\ (StatusCode resp1 = 404%Z <-> StatusCode resp2 = 404%Z)).
Proof.
  split; [|split].
  - intros W c taskID st err Hdev.
    now rewrite (StartTask_device_error c taskID st err Hdev).
  - intros W c taskID st resp Hrecv.
    rewrite (StartTask_reply c taskID st resp Hrecv).
    destruct (Z.eqb_spec (StatusCode resp) 200);
      destruct (Z.eqb_spec (StatusCode resp) 409);
      destruct (Z.eqb_spec (StatusCode resp) 400);
      destruct (Z.eqb_spec (StatusCode resp) 404);
      try lia; repeat split; intros; first [reflexivity | lia].
  - intros W1 W2 c1 c2 taskID1 taskID2 st1 st2 resp1 resp2 Hrecv1 Hrecv2.
    rewrite (@StartTask_reply L W1 c1 taskID1 st1 resp1 Hrecv1).
    rewrite (@StartTask_reply L W2 c2 taskID2 st2 resp2 Hrecv2).
    destruct (Z.eqb_spec (StatusCode resp1) 200);
      destruct (Z.eqb_spec (StatusCode resp1) 409);
      destruct (Z.eqb_spec (StatusCode resp1) 400);
      destruct (Z.eqb_spec (StatusCode resp1) 404);
      destruct (Z.eqb_spec (StatusCode resp2) 200);
      destruct (Z.eqb_spec (StatusCode resp2) 409);
      destruct (Z.eqb_spec (StatusCode resp2) 400);
      destruct (Z.eqb_spec (StatusCode resp2) 404);
      try lia; simpl; intros Heq; try discriminate Heq;
      repeat split; intros; lia.
Qed.
End StartTaskClaims.

Section SaveTaskResultClaims.
Context `{Libraries} `{World}.

Lemma send_result_heap c taskID deviceID r st :
  heap (snd (send_result c taskID deviceID r st)) = heap st.
Proof.
  destruct (send_result c taskID deviceID r st) as [o st'] eqn:E.
  now apply send_result_cases in E.
Qed.

Lemma send_result_sent c taskID deviceID r st body :
  json_Marshal_TaskResult r = inr body ->
  http_NewRequest_error "POST" (result_url c taskID) = None ->
  snd (send_result c taskID deviceID r st)
  = record_call (CallHttp (result_call c taskID deviceID body)) st.
Proof.
  intros Hm Hreq. unfold send_result. rewrite Hm, Hreq.
  destruct (answer_Http _ _) as [e|resp];
    [|destruct (StatusCode resp =? http_StatusOK)%Z]; reflexivity.
Qed.


(** C7. Once the device identity is resolved, [SaveTaskResult] fills
    each absent default of the result it was given and leaves the
    populated fields as they are: a nil [TaskID] becomes the UUID
    parsed from the path id, a zero [CreatedAt] the time of the call,
    an empty [RunnerAddress] the device identity.  The populated
    result is the one that is serialized: it is what
    [json.Marshal] is applied to and its encoding is the body of the
    request. *)
Theorem SaveTaskResult_fills_defaults c taskID l r deviceID u st :
  heap st !! l = Some r ->
  answer_VerifyDeviceID (trace st) = inr deviceID ->
  (TaskID r = uuid_Nil -> uuid_Parse taskID = inr u) ->
  let now := answer_Now (trace st ++ [CallVerifyDeviceID]) in
  exists r',
    TaskID r' = (if (TaskID r =? uuid_Nil)%N then u else TaskID r)
    /\ CreatedAt r'
       = (if Time_IsZero (CreatedAt r) then now else CreatedAt r)
    /\ RunnerAddress r'
       = (if String.eqb (RunnerAddress r) "" then deviceID
          else RunnerAddress r)
    /\ ExitCode r' = ExitCode r /\ Logs r' = Logs r
    /\ OutputArtifacts r' = OutputArtifacts r
    /\ SaveTaskResult c taskID (Some l) st
       = send_result c taskID deviceID r' (filled_state l r r' st)
    /\ heap (snd (SaveTaskResult c taskID (Some l) st)) !! l = Some r'
    /\ (forall body,
          json_Marshal_TaskResult r' = inr body ->
          http_NewRequest_error "POST" (result_url c taskID) = None ->
          trace (snd (SaveTaskResult c taskID (Some l) st))
          = trace st ++ fill_calls r
            ++ [CallHttp (result_call c taskID deviceID body)]).
Proof.
  intros Hl Hdev Hparse now.
  pose proof (SaveTaskResult_run c taskID l r deviceID u st Hl Hdev Hparse)
    as Hrun. cbv zeta in Hrun. fold now in Hrun.
  exists (fill_defaults u now deviceID r).
  repeat split; try reflexivity; try exact Hrun.
  - rewrite Hrun, send_result_heap. apply lookup_insert_eq.
  - intros body Hm Hreq. rewrite Hrun.
    rewrite (send_result_sent _ _ _ _ _ body Hm Hreq).
    unfold record_call, filled_state; simpl. now rewrite <- app_assoc.
Qed.


End SaveTaskResultClaims.

(** * Further properties of the task model *)

(** Closes the goals of a case in which the error returned is known. *)
Ltac cause_cases :=
  repeat split; intros; try tauto; try discriminate;
  try (unfold fmt_Errorf, errors_New in *; simpl in *; congruence).

Section TaskModelFurther.
Context `{Libraries}.

(** X1. [Task.Validate()] returns nil exactly for the tasks that have a
    title, a config that decodes, a recognized type and, when the type
    is docker, an image name in the decoded config together with an
    environment of kind "docker". *)
Theorem Task_Validate_accepts_iff (t : Task) :
  Task_Validate t = None <->
  Task_Title t <> ""
  /\ exists config,
       json_Unmarshal_TaskConfig (Task_Config t) = inr config
       /\ recognized (Task_Type t)
       /\ (Task_Type t = TaskTypeDocker ->
           ImageName config <> ""
           /\ exists env, Task_Environment t = Some env
                          /\ Environment_Type env = "docker").
Proof.
  unfold Task_Validate, TaskConfig_Validate, recognized.
  destruct (String.eqb_spec (Task_Title t) "") as [Ht|Ht].
  { split; [discriminate | tauto]. }
  destruct (String.eqb_spec (Task_Type t) "") as [Hty|Hty].
  { split; [discriminate|]. intros (_ & config & _ & Hrec & _).
    rewrite Hty in Hrec. now destruct Hrec as [E|[E|[E|E]]]. }
  destruct (json_Unmarshal_TaskConfig (Task_Config t)) as [err|config].
  { split; [discriminate|]. now intros (_ & config & Hc & _). }
  destruct (String.eqb_spec (Task_Type t) TaskTypeDocker) as [Hd|Hd].
  - destruct (String.eqb_spec (ImageName config) "") as [Hi|Hi].
    { split; [discriminate|]. intros (_ & config' & [= <-] & _ & Hdocker).
      now destruct (Hdocker Hd). }
    simpl. destruct (Task_Environment t) as [env|].
    + destruct (String.eqb_spec (Environment_Type env) "docker") as [He|He];
        simpl.
      * split; [|reflexivity]. intros _. split; [exact Ht|].
        exists config. repeat split; eauto.
      * split; [discriminate|].
        intros (_ & config' & _ & _ & Hdocker).
        destruct (Hdocker Hd) as (_ & env' & [= <-] & Hk). contradiction.
    + split; [discriminate|].
      intros (_ & config' & _ & _ & Hdocker).
      now destruct (Hdocker Hd) as (_ & env' & ? & _).
  - simpl.
    destruct (String.eqb_spec (Task_Type t) TaskTypeCommand) as [Hc|Hc].
    { split; [|reflexivity]. intros _. split; [exact Ht|].
      exists config. repeat split; tauto. }
    destruct (String.eqb_spec (Task_Type t) TaskTypeLLM) as [Hl|Hl].
    { split; [|reflexivity]. intros _. split; [exact Ht|].
      exists config. repeat split; tauto. }
    destruct (String.eqb_spec (Task_Type t) TaskTypeFederatedLearning)
      as [Hf|Hf].
    { split; [|reflexivity]. intros _. split; [exact Ht|].
      exists config. repeat split; tauto. }
    split; [discriminate|]. intros (_ & config' & _ & Hrec & _). tauto.
Qed.

(** X2. The verdict of [Task.Validate()] depends on the title, the
    type, the config and, for a docker task only, on whether the
    environment is of kind "docker": two tasks that agree on these get
    the same answer, whatever their id, status, description, reward,
    creator, runner, nonce and timestamps, and, for the other types,
    whatever their environment. *)
Theorem Task_Validate_reads_only (t t' : Task) :
  Task_Title t = Task_Title t' ->
  Task_Type t = Task_Type t' ->
  Task_Config t = Task_Config t' ->
  (Task_Type t = TaskTypeDocker ->
   (no_docker_environment t <-> no_docker_environment t')) ->
  Task_Validate t = Task_Validate t'.
Proof.
  intros Ht Hty Hc Henv. unfold Task_Validate.
  rewrite <- Ht, <- Hty, <- Hc.
  destruct (String.eqb (Task_Title t) ""); [reflexivity|].
  destruct (String.eqb (Task_Type t) ""); [reflexivity|].
  destruct (json_Unmarshal_TaskConfig (Task_Config t)); [reflexivity|].
  destruct (TaskConfig_Validate _ _); [reflexivity|].
  destruct (String.eqb_spec (Task_Type t) TaskTypeDocker) as [Hd|Hd];
    [|reflexivity].
  specialize (Henv Hd). unfold no_docker_environment in Henv. simpl.
  destruct (Task_Environment t) as [env|], (Task_Environment t') as [env'|];
    try destruct (String.eqb_spec (Environment_Type env) "docker");
    try destruct (String.eqb_spec (Environment_Type env') "docker");
    simpl; try reflexivity; tauto.
Qed.

(** X3. The errors of [Task.Validate()] name their cause: "title is
    required" is returned exactly when the title is empty, "task type
    is required" exactly when the title is not empty and the type is,
    and the docker-environment error only for a docker task without a
    docker environment whose config decodes and names an image. *)
Theorem Task_Validate_error_cause (t : Task) :
  (Task_Validate t = Some (errors_New "title is required")
   <-> Task_Title t = "")
  /\ (Task_Validate t = Some (errors_New "task type is required")
      <-> Task_Title t <> "" /\ Task_Type t = "")
  /\ (Task_Validate t
      = Some (errors_New
          "docker environment configuration is required for docker tasks")
      -> Task_Title t <> "" /\ Task_Type t = TaskTypeDocker
         /\ no_docker_environment t
         /\ exists config,
              json_Unmarshal_TaskConfig (Task_Config t) = inr config
              /\ ImageName config <> "").
Proof.
  unfold Task_Validate, TaskConfig_Validate, no_docker_environment.
  destruct (String.eqb_spec (Task_Title t) "") as [Ht|Ht];
    [cause_cases|].
  destruct (String.eqb_spec (Task_Type t) "") as [Hty|Hty];
    [cause_cases|].
  destruct (json_Unmarshal_TaskConfig (Task_Config t)) as [err|config];
    [cause_cases|].
  destruct (String.eqb_spec (Task_Type t) TaskTypeDocker) as [Hd|Hd].
  - destruct (String.eqb_spec (ImageName config) "") as [Hi|Hi];
      [cause_cases|].
    simpl. destruct (Task_Environment t) as [env|].
    + destruct (String.eqb_spec (Environment_Type env) "docker"); simpl;
        cause_cases; eauto.
    + cause_cases; eauto.
  - simpl.
    destruct (String.eqb (Task_Type t) TaskTypeCommand); [cause_cases|].
    destruct (String.eqb (Task_Type t) TaskTypeLLM); [cause_cases|].
    destruct (String.eqb (Task_Type t) TaskTypeFederatedLearning);
      cause_cases.
Qed.
End TaskModelFurther.

(** X4. [TaskConfig.Validate] reads nothing but [ImageName], and that
    only for a docker task: for the other types every config gets the
    same answer, and for docker two configs with the same image name
    do, whatever their file URL, docker image URL, environment
    variables and resources. *)
Theorem TaskConfig_Validate_reads_only (c c' : TaskConfig) (T : TaskType) :
  T <> TaskTypeDocker \/ ImageName c = ImageName c' ->
  TaskConfig_Validate c T = TaskConfig_Validate c' T.
Proof.
  intros Hsame. unfold TaskConfig_Validate.
  destruct (String.eqb_spec T TaskTypeDocker) as [Hd|Hd]; [|reflexivity].
  destruct Hsame as [Hne | ->]; [contradiction | reflexivity].
Qed.

(** * Further properties of the task client *)

Section ClientFurther.
Context `{Libraries} `{World}.

(** Every run of [StartTask], by the step at which it ends. *)
Lemma StartTask_cases c taskID st :
  (exists err,
      answer_VerifyDeviceID (trace st) = inl err
      /\ StartTask c taskID st
         = (Err (fmt_Errorf "failed to get device ID: " err),
            record_call CallVerifyDeviceID st))
  \/ (exists deviceID err,
        answer_VerifyDeviceID (trace st) = inr deviceID
        /\ http_NewRequest_error "POST" (start_url c taskID) = Some err
        /\ StartTask c taskID st
           = (Err (fmt_Errorf "failed to create request: " err),
              record_call CallVerifyDeviceID st))
  \/ (exists deviceID o,
        answer_VerifyDeviceID (trace st) = inr deviceID
        /\ http_NewRequest_error "POST" (start_url c taskID) = None
        /\ StartTask c taskID st
           = (o, record_call (CallHttp (start_call c taskID deviceID))
                   (record_call CallVerifyDeviceID st))
        /\ match answer_Http (trace st ++ [CallVerifyDeviceID])
                             (start_call c taskID deviceID) with
           | inl e =>
               o = Err (fmt_Errorf
                          ("HTTP POST failed for " +:+ start_url c taskID
                           +:+ ": ") e)
           | inr resp =>
               (StatusCode resp = http_StatusOK /\ o = Ok tt)
               \/ (StatusCode resp <> http_StatusOK /\ exists e, o = Err e)
           end).
Proof.
  unfold StartTask, bind, deviceid_VerifyDeviceID, Client_Do, http_call,
    check, http_NewRequest, throw, ret; simpl.
  fold (api_root c). fold (start_url c taskID).
  destruct (answer_VerifyDeviceID (trace st)) as [err|deviceID]; simpl.
  { left. eauto. }
  right.
  destruct (http_NewRequest_error "POST" (start_url c taskID)) as [err|];
    simpl.
  { left. eauto. }
  right. fold (start_call c taskID deviceID).
  destruct (answer_Http (trace st ++ [CallVerifyDeviceID])
                        (start_call c taskID deviceID)) as [e|resp] eqn:Hans;
    simpl.
  { exists deviceID. eexists. rewrite Hans. repeat split. }
  exists deviceID.
  destruct (Z.eqb_spec (StatusCode resp) http_StatusOK) as [Hok|Hok].
  { eexists. rewrite Hans. repeat split.
    left. split; [exact Hok | reflexivity]. }
  destruct (StatusCode resp =? http_StatusConflict)%Z;
    [|destruct (StatusCode resp =? http_StatusBadRequest)%Z;
      [|destruct (StatusCode resp =? http_StatusNotFound)%Z]];
    eexists; rewrite Hans; repeat split; right; eauto.
Qed.

(** X5. [GetAvailableTasks] makes exactly one call, the GET of the
    queue, whatever the outcome: it does not ask for the device
    identity and writes nothing.  It never panics; it returns a list
    exactly when the server answered 200 with a body that decodes to
    that list; the body of a non-200 answer is not looked at. *)
Theorem GetAvailableTasks_one_unauthenticated_read c st :
  snd (GetAvailableTasks c st)
  = record_call (CallHttp (Get (available_url c))) st
  /\ (forall msg, fst (GetAvailableTasks c st) <> Panic msg)
  /\ (forall tasks,
        fst (GetAvailableTasks c st) = Ok tasks <->
        exists resp,
          answer_Http (trace st) (Get (available_url c)) = inr resp
          /\ StatusCode resp = http_StatusOK
          /\ json_Decode_Tasks (Body resp) = inr tasks)
  /\ (forall resp,
        answer_Http (trace st) (Get (available_url c)) = inr resp ->
        StatusCode resp <> http_StatusOK ->
        fst (GetAvailableTasks c st)
        = Err (unexpected_status (StatusCode resp))).
Proof.
  unfold GetAvailableTasks, bind, http_Get, http_call, check, throw, ret;
    simpl.
  fold (api_root c). fold (available_url c).
  destruct (answer_Http (trace st) (Get (available_url c))) as [e|resp];
    simpl.
  { repeat split; try discriminate. now intros (resp & [=] & _). }
  destruct (Z.eqb_spec (StatusCode resp) http_StatusOK) as [Hok|Hok]; simpl.
  - destruct (json_Decode_Tasks (Body resp)) as [e|tasks] eqn:Hdec; simpl.
    + repeat split; try discriminate.
      * intros (resp' & [= <-] & _ & Hdec'). congruence.
      * intros resp' [= <-] Hne. contradiction.
    + repeat split; try discriminate.
      * intros [= <-]. eauto.
      * intros (resp' & [= <-] & _ & Hdec'). congruence.
      * intros resp' [= <-] Hne. contradiction.
  - repeat split; try discriminate.
    + intros (resp' & [= <-] & Hok' & _). contradiction.
    + now intros resp' [= <-] _.
Qed.

(** X6. [CompleteTask] makes exactly one call, a POST without body to
    the complete endpoint, made through [http.Post]: no request object
    is built, so no device identity is read or attached.  It never
    panics, succeeds exactly when the server answers 200, and reports
    any other status by its code alone, whatever the body. *)
Theorem CompleteTask_one_anonymous_post c taskID st :
  snd (CompleteTask c taskID st)
  = record_call
      (CallHttp (Post (complete_url c taskID) "application/json" None)) st
  /\ (forall msg, fst (CompleteTask c taskID st) <> Panic msg)
  /\ (fst (CompleteTask c taskID st) = Ok tt <->
      exists resp,
        answer_Http (trace st) (complete_call c taskID) = inr resp
        /\ StatusCode resp = http_StatusOK)
  /\ (forall resp,
        answer_Http (trace st) (complete_call c taskID) = inr resp ->
        StatusCode resp <> http_StatusOK ->
        fst (CompleteTask c taskID st)
        = Err (unexpected_status (StatusCode resp))).
Proof.
  unfold CompleteTask, bind, http_Post, http_call, check, throw, ret; simpl.
  fold (api_root c). fold (complete_url c taskID).
  fold (complete_call c taskID).
  destruct (answer_Http (trace st) (complete_call c taskID)) as [e|resp];
    simpl.
  { repeat split; try discriminate. now intros (resp & [=] & _). }
  destruct (Z.eqb_spec (StatusCode resp) http_StatusOK) as [Hok|Hok]; simpl.
  - repeat split; try discriminate; eauto.
    intros resp' [= <-] Hne. contradiction.
  - repeat split; try discriminate.
    + intros (resp' & [= <-] & Hok'). contradiction.
    + now intros resp' [= <-] _.
Qed.

(** X7. [StartTask] never panics and writes nothing.  It asks for the
    device identity first and sends at most one request; a request is
    sent only when the identity was resolved, and it is then a POST
    without body to the start endpoint that carries the identity in
    its [X-Device-ID] header, through a client with a timeout of ten
    seconds.  Success means that this request was sent and answered
    with 200. *)
Theorem StartTask_request_shape c taskID st :
  heap (snd (StartTask c taskID st)) = heap st
  /\ (forall msg, fst (StartTask c taskID st) <> Panic msg)
  /\ (trace (snd (StartTask c taskID st)) = trace st ++ [CallVerifyDeviceID]
      /\ (exists e, fst (StartTask c taskID st) = Err e)
      \/ exists deviceID client req,
           answer_VerifyDeviceID (trace st) = inr deviceID
           /\ trace (snd (StartTask c taskID st))
              = trace st ++ [CallVerifyDeviceID; CallHttp (Do client req)]
           /\ Client_Timeout client = (10 * time_Second)%Z
           /\ Request_Method req = "POST"
           /\ Request_URL req = start_url c taskID
           /\ Request_Body req = None
           /\ Request_Header req !! "X-Device-ID" = Some deviceID
           /\ (fst (StartTask c taskID st) = Ok tt <->
               exists resp,
                 answer_Http (trace st ++ [CallVerifyDeviceID])
                             (Do client req) = inr resp
                 /\ StatusCode resp = http_StatusOK)).
Proof.
  destruct (StartTask_cases c taskID st)
    as [(err & _ & ->) | [(d & err & _ & _ & ->) | (d & o & Hd & _ & -> & Ho)]];
    simpl.
  - repeat split; try discriminate. left. eauto.
  - repeat split; try discriminate. left. eauto.
  - assert (Hnp : forall msg, o <> Panic msg).
    { intros msg ->.
      destruct (answer_Http _ _) as [e|resp];
        [discriminate | destruct Ho as [[_ ?] | (_ & e & ?)]; discriminate]. }
    repeat split; [exact Hnp|].
    right. exists d, (mkClient (10 * time_Second)).
    eexists. split; [exact Hd|]. split.
    { unfold start_call. now rewrite <- app_assoc. }
    do 4 (split; [reflexivity|]).
    split; [apply lookup_insert_eq|]. split.
    + intros ->. destruct (answer_Http _ _) as [e|resp]; [discriminate|].
      destruct Ho as [[Hok _] | (_ & e & ?)]; [eauto | discriminate].
    + intros (resp & Hans & Hok). unfold start_call in Ho.
      rewrite Hans in Ho. destruct Ho as [[_ ?] | [? _]]; tauto.
Qed.

(** X8. A task returned by [FetchTask] was the first entry of the list
    the server sent with status 200, and its claim was acknowledged:
    the call made exactly three calls — the GET of the queue, the
    device identity, the start request for that task's id — the last
    answered with 200, and it wrote nothing. *)
Theorem FetchTask_success_means_claimed c st t st' :
  FetchTask c st = (Ok t, st') ->
  exists resp rest deviceID,
    answer_Http (trace st) (Get (available_url c)) = inr resp
    /\ StatusCode resp = http_StatusOK
    /\ json_Decode_Tasks (Body resp) = inr (Some t :: rest)
    /\ answer_VerifyDeviceID (trace st ++ [CallHttp (Get (available_url c))])
       = inr deviceID
    /\ st' = mkState (heap st)
               (trace st
                ++ [CallHttp (Get (available_url c)); CallVerifyDeviceID;
                    CallHttp (start_call c (uuid_String (Task_ID t))
                                         deviceID)])
    /\ exists start_resp,
         answer_Http
           (trace st ++ [CallHttp (Get (available_url c)); CallVerifyDeviceID])
           (start_call c (uuid_String (Task_ID t)) deviceID)
         = inr start_resp
         /\ StatusCode start_resp = http_StatusOK.
Proof.
  intros Hrun. unfold FetchTask, bind in Hrun.
  destruct (GetAvailableTasks c st) as [[tasks|e|msg] st1] eqn:Hget;
    try discriminate.
  pose proof (GetAvailableTasks_state _ _ _ _ Hget) as ->.
  assert (Hfst : fst (GetAvailableTasks c st) = Ok tasks)
    by now rewrite Hget.
  revert Hfst.
  unfold GetAvailableTasks, bind, http_Get, http_call, check, throw, ret;
    simpl.
  fold (api_root c). fold (available_url c).
  destruct (answer_Http (trace st) (Get (available_url c))) as [e|resp];
    simpl; [discriminate|].
  destruct (Z.eqb_spec (StatusCode resp) http_StatusOK) as [Hok|Hok]; simpl;
    [|discriminate].
  destruct (json_Decode_Tasks (Body resp)) as [e|tasks'] eqn:Hdec; simpl;
    [discriminate|].
  intros [= ->].
  destruct tasks as [|[t0|] rest]; try discriminate.
  unfold deref_Task, ret in Hrun.
  destruct (StartTask c (uuid_String (Task_ID t0))
              (record_call (CallHttp (Get (available_url c))) st))
    as [[[]|e|msg] st2] eqn:Hstart; try discriminate.
  injection Hrun as <- <-.
  destruct (StartTask_cases c (uuid_String (Task_ID t0))
              (record_call (CallHttp (Get (available_url c))) st))
    as [(err & _ & E) | [(d & err & _ & _ & E) | (d & o & Hd & _ & E & Ho)]];
    rewrite E in Hstart; try discriminate.
  injection Hstart as -> <-. simpl in Hd, Ho.
  exists resp, rest, d. repeat split; try assumption.
  - unfold record_call; simpl. now rewrite <- !app_assoc.
  - rewrite <- app_assoc in Ho. simpl in Ho.
    destruct (answer_Http _ _) as [e|start_resp]; [discriminate|].
    destruct Ho as [[Hok' _] | (_ & e & ?)]; [eauto | discriminate].
Qed.
End ClientFurther.

Section SaveTaskResultFurther.
Context `{Libraries} `{World}.

Lemma send_result_never_panics c taskID deviceID r st msg :
  fst (send_result c taskID deviceID r st) <> Panic msg.
Proof.
  unfold send_result.
  destruct (json_Marshal_TaskResult r); [discriminate|].
  destruct (http_NewRequest_error _ _); [discriminate|].
  destruct (answer_Http _ _) as [e|resp]; [discriminate|].
  destruct (StatusCode resp =? http_StatusOK)%Z; discriminate.
Qed.

Lemma fill_defaults_populated u now deviceID r :
  populated r -> fill_defaults u now deviceID r = r.
Proof.
  intros (Hid & Hat & Haddr). unfold fill_defaults.
  apply N.eqb_neq in Hid. apply String.eqb_neq in Haddr.
  rewrite Hid, Hat, Haddr. apply TaskResult_eta.
Qed.

(** X9. Whatever its outcome, [SaveTaskResult] sends at most one
    request, and only after the device identity was resolved.  The
    request is a POST to the result endpoint through
    [http.DefaultClient] (no timeout); its body is the encoding of the
    object the pointer refers to once the call is over, and it carries
    the headers [Content-Type: application/json] and [X-Device-ID] with
    the resolved identity. *)
Theorem SaveTaskResult_request_shape c taskID p st :
  http_calls (trace (snd (SaveTaskResult c taskID p st)))
  = http_calls (trace st)
  \/ exists l r' deviceID body req,
       p = Some l
       /\ answer_VerifyDeviceID (trace st) = inr deviceID
       /\ heap (snd (SaveTaskResult c taskID p st)) !! l = Some r'
       /\ json_Marshal_TaskResult r' = inr body
       /\ http_calls (trace (snd (SaveTaskResult c taskID p st)))
          = http_calls (trace st) ++ [Do http_DefaultClient req]
       /\ Client_Timeout http_DefaultClient = 0%Z
       /\ Request_Method req = "POST"
       /\ Request_URL req = result_url c taskID
       /\ Request_Body req = Some body
       /\ Request_Header req !! "X-Device-ID" = Some deviceID
       /\ Request_Header req !! "Content-Type" = Some "application/json".
Proof.
  assert (Hsame : forall c0, http_calls (trace st ++ [c0])
                             = http_calls (trace st) ++ http_calls [c0])
    by (intros; apply http_calls_app).
  destruct (SaveTaskResult_cases c taskID p st)
    as [(err & _ & ->) | [(msg & ->) | (l & r & d & u & -> & Hl & Hd & _ & E)]].
  - left. simpl. rewrite Hsame. simpl. now rewrite app_nil_r.
  - left. simpl. rewrite Hsame. simpl. now rewrite app_nil_r.
  - cbv zeta in E. rewrite E.
    set (r' := fill_defaults u (answer_Now (trace st ++ [CallVerifyDeviceID]))
                             d r).
    assert (Hfill : http_calls (trace (filled_state l r r' st))
                    = http_calls (trace st)).
    { unfold filled_state, fill_calls; simpl. rewrite http_calls_app; simpl.
      destruct (Time_IsZero (CreatedAt r)); simpl; now rewrite app_nil_r. }
    destruct (send_result c taskID d r' (filled_state l r r' st))
      as [o st'] eqn:Hsend.
    apply send_result_cases in Hsend
      as (Hheap & [(e & _ & ->) | (body & Hm & _ & ->)]).
    + left. exact Hfill.
    + right. exists l, r', d, body. eexists.
      split; [reflexivity|]. split; [exact Hd|].
      split; [simpl; apply lookup_insert_eq|]. split; [exact Hm|].
      split.
      { unfold record_call. cbn [snd trace].
        rewrite http_calls_app, Hfill. reflexivity. }
      do 4 (split; [reflexivity|]).
      split; [apply lookup_insert_eq|].
      unfold Header_Set; simpl.
      rewrite lookup_insert_ne by discriminate. apply lookup_insert_eq.
Qed.

(** X10. On a result with nothing left to fill (a set [TaskID], a
    non-zero [CreatedAt], a non-empty [RunnerAddress]),
    [SaveTaskResult] does not parse the path id, so it cannot panic
    whatever the id is; it does not read the clock; it leaves memory as
    it was; and what it sends, if anything, is the encoding of the
    result as given, whose [TaskID] is not compared with the path
    id. *)
Theorem SaveTaskResult_populated_result c taskID l r deviceID st :
  heap st !! l = Some r ->
  populated r ->
  answer_VerifyDeviceID (trace st) = inr deviceID ->
  heap (snd (SaveTaskResult c taskID (Some l) st)) = heap st
  /\ (forall msg, fst (SaveTaskResult c taskID (Some l) st) <> Panic msg)
  /\ (trace (snd (SaveTaskResult c taskID (Some l) st))
      = trace st ++ [CallVerifyDeviceID]
      \/ exists body,
           json_Marshal_TaskResult r = inr body
           /\ trace (snd (SaveTaskResult c taskID (Some l) st))
              = trace st
                ++ [CallVerifyDeviceID;
                    CallHttp (result_call c taskID deviceID body)]).
Proof.
  intros Hl Hpop Hdev.
  assert (Hparse : TaskID r = uuid_Nil -> uuid_Parse taskID = inr (TaskID r))
    by (intros Hnil; now destruct Hpop).
  pose proof (SaveTaskResult_run c taskID l r deviceID (TaskID r) st
                Hl Hdev Hparse) as Hrun.
  cbv zeta in Hrun. rewrite (fill_defaults_populated _ _ _ _ Hpop) in Hrun.
  rewrite Hrun.
  assert (Hstate : filled_state l r r st
                   = record_call CallVerifyDeviceID st).
  { unfold filled_state, fill_calls, record_call.
    destruct Hpop as (_ & -> & _). now rewrite insert_id. }
  rewrite Hstate.
  split; [now rewrite send_result_heap|].
  split; [intros msg; apply send_result_never_panics|].
  destruct (send_result c taskID deviceID r
              (record_call CallVerifyDeviceID st)) as [o st'] eqn:Hsend.
  apply send_result_cases in Hsend
    as (_ & [(e & _ & ->) | (body & Hm & _ & ->)]).
  - now left.
  - right. exists body. split; [exact Hm|].
    simpl. now rewrite <- app_assoc.
Qed.

(** X11. When the result request is answered with a status other than
    200, [SaveTaskResult] returns the server's own message if the body
    decodes to a non-empty [error] member, and the bare status code
    otherwise (an empty member, or a body that does not decode); the
    defaults it filled before sending stay in the caller's result. *)
Theorem SaveTaskResult_prefers_server_message
    c taskID l r deviceID u body resp st :
  heap st !! l = Some r ->
  answer_VerifyDeviceID (trace st) = inr deviceID ->
  (TaskID r = uuid_Nil -> uuid_Parse taskID = inr u) ->
  let r' := fill_defaults u (answer_Now (trace st ++ [CallVerifyDeviceID]))
                          deviceID r in
  json_Marshal_TaskResult r' = inr body ->
  http_NewRequest_error "POST" (result_url c taskID) = None ->
  answer_Http (trace st ++ fill_calls r)
              (result_call c taskID deviceID body) = inr resp ->
  StatusCode resp <> http_StatusOK ->
  (forall msg,
      json_Decode_errResp (Body resp) = inr msg -> msg <> "" ->
      fst (SaveTaskResult c taskID (Some l) st)
      = Err ("server error: " +:+ msg))
  /\ (json_Decode_errResp (Body resp) = inr ""
      \/ (exists x, json_Decode_errResp (Body resp) = inl x) ->
      fst (SaveTaskResult c taskID (Some l) st)
      = Err ("unexpected status code: " +:+ fmt_d (StatusCode resp)))
  /\ heap (snd (SaveTaskResult c taskID (Some l) st)) !! l = Some r'.
Proof.
  intros Hl Hdev Hparse r' Hm Hreq Hans Hcode.
  pose proof (SaveTaskResult_run c taskID l r deviceID u st Hl Hdev Hparse)
    as Hrun. cbv zeta in Hrun. fold r' in Hrun. rewrite Hrun.
  split; [|split].
  - intros msg Hdec Hne. unfold send_result. rewrite Hm, Hreq.
    cbn [trace filled_state]. rewrite Hans.
    apply Z.eqb_neq in Hcode. rewrite Hcode.
    unfold result_status_error. rewrite Hdec.
    apply String.eqb_neq in Hne. now rewrite Hne.
  - intros Hdec. unfold send_result. rewrite Hm, Hreq.
    cbn [trace filled_state]. rewrite Hans.
    apply Z.eqb_neq in Hcode. rewrite Hcode.
    unfold result_status_error.
    destruct Hdec as [-> | (x & ->)]; reflexivity.
  - rewrite send_result_heap. apply lookup_insert_eq.
Qed.

(** X12. With a terminal status and a non-nil result, on a host whose
    device identity cannot be resolved, [UpdateTaskStatus] first marks
    the task complete on the server ([CompleteTask] needs no identity)
    and only then fails with the device-identity error: the complete
    request has been sent and acknowledged, no result request is sent,
    and nothing is written. *)
Theorem UpdateTaskStatus_completes_before_identity
    c taskID status l resp err st :
  status = TaskStatusCompleted \/ status = TaskStatusFailed ->
  answer_Http (trace st) (complete_call c taskID) = inr resp ->
  StatusCode resp = http_StatusOK ->
  answer_VerifyDeviceID (trace st ++ [CallHttp (complete_call c taskID)])
  = inl err ->
  UpdateTaskStatus c taskID status (Some l) st
  = (Err ("failed to get device ID: " +:+ err),
     mkState (heap st)
             (trace st
              ++ [CallHttp (complete_call c taskID); CallVerifyDeviceID])).
Proof.
  intros Hterminal Hans Hok Hdev.
  rewrite (UpdateTaskStatus_terminal c taskID status (Some l) st Hterminal).
  assert (Hc : CompleteTask c taskID st
               = (Ok tt, record_call (CallHttp (complete_call c taskID)) st)).
  { unfold CompleteTask, bind, http_Post, http_call, check, throw, ret;
      simpl.
    fold (api_root c). fold (complete_url c taskID).
    fold (complete_call c taskID). rewrite Hans. simpl.
    apply Z.eqb_eq in Hok. now rewrite Hok. }
  erewrite bind_Ok by exact Hc.
  rewrite (SaveTaskResult_device_error c taskID (Some l)
             (record_call (CallHttp (complete_call c taskID)) st) err Hdev).
  unfold record_call; simpl. now rewrite <- app_assoc.
Qed.
End SaveTaskResultFurther.

(** * Properties of [NewTask] and of the reporting calls *)

Lemma has_prefix_append (s t : string) : has_prefix s (s +:+ t) = true.
Proof.
  induction s as [|a s IH]; [reflexivity|].
  change (Ascii.eqb a a && has_prefix s (s +:+ t) = true).
  now rewrite Ascii.eqb_refl, IH.
Qed.

Lemma String_append_assoc (a b c : string) :
  (a +:+ b) +:+ c = a +:+ (b +:+ c).
Proof.
  induction a as [|x a IH]; [reflexivity|].
  change (String x ((a +:+ b) +:+ c) = String x (a +:+ (b +:+ c))).
  now f_equal.
Qed.

Lemma api_root_of_suffixed (b : string) :
  api_root (NewHTTPTaskClient (b +:+ "/api")) = b.
Proof. apply strings_TrimSuffix_append. Qed.

Lemma api_root_of_plain (b : string) :
  strings_HasSuffix b "/api" = false -> api_root (NewHTTPTaskClient b) = b.
Proof.
  intros Hno. unfold api_root, strings_TrimSuffix; simpl. now rewrite Hno.
Qed.

Section ReportingProperties.
Context `{Libraries} `{PayloadLibraries} `{Entropy} `{World}.



End ReportingProperties.

Section FLProperties.
Context `{Libraries} `{PayloadLibraries} `{World}.

(** Every run of [SubmitFLModelUpdate], by the step at which it ends. *)
Lemma SubmitFLModelUpdate_cases
    c sessionID roundID runnerID gradients weights dataSize loss accuracy
    trainingTime st :
  let payload := fl_payload sessionID roundID runnerID gradients weights
                            dataSize loss accuracy trainingTime
                            (answer_Now (trace st)) in
  let out := SubmitFLModelUpdate c sessionID roundID runnerID gradients
               weights dataSize loss accuracy trainingTime st in
  (exists x, json_Marshal_payload payload = inl x
             /\ out = (Err ("failed to marshal FL model update: " +:+ x),
                       record_call CallNow st))
  \/ (exists body x,
        json_Marshal_payload payload = inr body
        /\ http_NewRequest_error "POST" (fl_url c) = Some x
        /\ out = (Err ("failed to create FL model update request: " +:+ x),
                  record_call CallNow st))
  \/ exists body o,
       json_Marshal_payload payload = inr body
       /\ out = (o, record_call (CallHttp (fl_call c body))
                      (record_call CallNow st))
       /\ match answer_Http (trace st ++ [CallNow]) (fl_call c body) with
          | inl e =>
              o = Err (("HTTP POST failed for FL model update "
                        +:+ fl_url c +:+ ": ") +:+ e)
          | inr resp =>
              (StatusCode resp = http_StatusOK /\ o = Ok tt)
              \/ (StatusCode resp <> http_StatusOK
                  /\ o = Err (fl_status_error resp))
          end.
Proof.
  intros payload out. subst out.
  unfold SubmitFLModelUpdate, bind, time_Now, Client_Do, http_call, check,
    http_NewRequest, throw, ret, fmt_Errorf.
  fold (api_root c). fold (fl_url c).
  fold (fl_payload sessionID roundID runnerID gradients weights dataSize
          loss accuracy trainingTime (answer_Now (trace st))).
  fold payload.
  destruct (json_Marshal_payload payload) as [x|body]; [left; eauto|].
  right.
  destruct (http_NewRequest_error "POST" (fl_url c)) as [x|];
    [left; eauto|].
  right. exists body. fold (fl_call c body).
  change (trace (record_call CallNow st)) with (trace st ++ [CallNow]).
  destruct (answer_Http (trace st ++ [CallNow]) (fl_call c body))
    as [e|resp] eqn:Hans.
  { eexists. repeat split. }
  destruct (Z.eqb_spec (StatusCode resp) http_StatusOK) as [Hok|Hok]; simpl.
  { eexists. repeat split. now left. }
  unfold fl_status_error, fmt_Errorf.
  destruct (json_Unmarshal_errResp (Body resp)) as [e|msg];
    [|destruct (String.eqb msg "")]; simpl;
    eexists; repeat split; right; split; auto.
Qed.

(** X15. [SubmitFLModelUpdate] reads the clock once, before anything
    else, and puts the reading, in Unix seconds, under
    [metadata.submission_time]; the payload always says
    [update_type = "gradients"], whatever gradients and weights are
    given.  It then makes at most one call: a POST of the encoded
    payload to the model-updates endpoint, with a [Content-Type]
    header and no [X-Device-ID] header, through a client with a
    timeout of thirty seconds.  It never asks for the device identity,
    never panics, writes nothing, and succeeds exactly when the
    request was sent and answered with 200. *)
Theorem SubmitFLModelUpdate_request_shape
    c sessionID roundID runnerID gradients weights dataSize loss accuracy
    trainingTime st :
  let now := answer_Now (trace st) in
  let payload := fl_payload sessionID roundID runnerID gradients weights
                            dataSize loss accuracy trainingTime now in
  let out := SubmitFLModelUpdate c sessionID roundID runnerID gradients
               weights dataSize loss accuracy trainingTime st in
  size payload = 11
  /\ payload !! "update_type" = Some (JString "gradients")
  /\ payload !! "gradients" = Some (JFloatSlices gradients)
  /\ payload !! "weights" = Some (JFloatSlices weights)
  /\ payload !! "metadata"
     = Some (JObject {[ "submission_time" := JInt (Time_Unix now) ]})
  /\ heap (snd out) = heap st
  /\ (forall msg, fst out <> Panic msg)
  /\ (snd out = record_call CallNow st /\ (exists e, fst out = Err e)
      \/ exists body req,
           json_Marshal_payload payload = inr body
           /\ trace (snd out)
              = trace st
                ++ [CallNow; CallHttp (Do (mkClient (30 * time_Second)) req)]
           /\ Request_Method req = "POST"
           /\ Request_URL req = fl_url c
           /\ Request_Body req = Some body
           /\ Request_Header req !! "Content-Type" = Some "application/json"
           /\ Request_Header req !! "X-Device-ID" = None
           /\ (fst out = Ok tt <->
               exists resp,
                 answer_Http (trace st ++ [CallNow])
                   (Do (mkClient (30 * time_Second)) req) = inr resp
                 /\ StatusCode resp = http_StatusOK)).
Proof.
  intros now payload out.
  do 5 (split; [reflexivity|]).
  destruct (SubmitFLModelUpdate_cases c sessionID roundID runnerID gradients
              weights dataSize loss accuracy trainingTime st)
    as [(x & _ & E) | [(body & x & _ & _ & E) | (body & o & Hm & E & Ho)]];
    fold out in E; rewrite E; simpl.
  - repeat split; try discriminate. left. eauto.
  - repeat split; try discriminate. left. eauto.
  - assert (Hnp : forall msg, o <> Panic msg).
    { intros msg ->. destruct (answer_Http _ _) as [e|resp];
        [discriminate | destruct Ho as [[_ ?] | [_ ?]]; discriminate]. }
    split; [reflexivity|]. split; [exact Hnp|]. right. exists body. eexists.
    split; [exact Hm|]. split; [now rewrite <- app_assoc|].
    do 3 (split; [reflexivity|]).
    split; [apply lookup_insert_eq|].
    split; [unfold Header_Set; simpl; now rewrite lookup_insert_ne|].
    fold (fl_call c body). split.
    + intros ->. destruct (answer_Http _ _) as [e|resp]; [discriminate|].
      destruct Ho as [[Hok _] | [_ ?]]; [eauto | discriminate].
    + intros (resp & Hans & Hok). rewrite Hans in Ho.
      destruct Ho as [[_ ?] | [? _]]; tauto.
Qed.

(** X16. Every error [SubmitFLModelUpdate] returns is tagged as an FL
    error: its message begins with one of "failed to marshal FL model
    update: ", "failed to create FL model update request: ", "HTTP
    POST failed for FL model update ", "FL model update server error:
    " and "FL model update unexpected status code: ".  For a status
    other than 200 the server's message is preferred when the body
    holds a non-empty [error] member, and otherwise the error carries
    both the status code and the raw body. *)
Theorem SubmitFLModelUpdate_errors_are_tagged
    c sessionID roundID runnerID gradients weights dataSize loss accuracy
    trainingTime st :
  let out := SubmitFLModelUpdate c sessionID roundID runnerID gradients
               weights dataSize loss accuracy trainingTime st in
  (forall e,
      fst out = Err e ->
      has_prefix "failed to marshal FL model update: " e = true
      \/ has_prefix "failed to create FL model update request: " e = true
      \/ has_prefix "HTTP POST failed for FL model update " e = true
      \/ has_prefix "FL model update server error: " e = true
      \/ has_prefix "FL model update unexpected status code: " e = true)
  /\ (forall body resp,
        json_Marshal_payload
          (fl_payload sessionID roundID runnerID gradients weights dataSize
                      loss accuracy trainingTime (answer_Now (trace st)))
        = inr body ->
        http_NewRequest_error "POST" (fl_url c) = None ->
        answer_Http (trace st ++ [CallNow]) (fl_call c body) = inr resp ->
        StatusCode resp <> http_StatusOK ->
        (forall msg,
            json_Unmarshal_errResp (Body resp) = inr msg -> msg <> "" ->
            fst out = Err ("FL model update server error: " +:+ msg))
        /\ (json_Unmarshal_errResp (Body resp) = inr ""
            \/ (exists x, json_Unmarshal_errResp (Body resp) = inl x) ->
            fst out
            = Err ("FL model update unexpected status code: "
                   +:+ fmt_d (StatusCode resp) +:+ ", body: "
                   +:+ Body resp))).
Proof.
  intros out.
  destruct (SubmitFLModelUpdate_cases c sessionID roundID runnerID gradients
              weights dataSize loss accuracy trainingTime st)
    as [(x & Hm & E) | [(body & x & Hm & Hreq & E) | (body & o & Hm & E & Ho)]];
    fold out in E; rewrite E; cbn [fst snd].
  - split; [|intros body resp Hm'; congruence].
    intros e [= <-]. left. apply has_prefix_append.
  - split; [|intros body' resp Hm' Hreq'; congruence].
    intros e [= <-]. right; left. apply has_prefix_append.
  - split.
    + intros e ->. destruct (answer_Http _ _) as [x|resp].
      { injection Ho as ->. right; right; left.
        rewrite String_append_assoc. apply has_prefix_append. }
      destruct Ho as [[_ ?] | [_ Ho]]; [discriminate|].
      injection Ho as ->. unfold fl_status_error, fmt_Errorf.
      destruct (json_Unmarshal_errResp (Body resp)) as [x|msg];
        [|destruct (String.eqb msg "")]; simpl.
      * right; right; right; right.
        first [reflexivity | apply has_prefix_append].
      * right; right; right; right.
        first [reflexivity | apply has_prefix_append].
      * right; right; right; left.
        first [reflexivity | apply has_prefix_append].
    + intros body' resp Hm' Hreq Hans Hcode.
      assert (body' = body) as -> by congruence.
      rewrite Hans in Ho. destruct Ho as [[? _] | [_ ->]]; [contradiction|].
      unfold fl_status_error, fmt_Errorf. split.
      * intros msg -> Hne. apply String.eqb_neq in Hne. now rewrite Hne.
      * intros [-> | (x & ->)]; reflexivity.
Qed.

(** X17. The trailing "/api" of the base URL is optional: when [b] does
    not itself end in "/api", the clients built from [b] and from
    [b ++ "/api"] behave identically in every operation — the same
    calls to the same URLs, the same outcomes.  Only one suffix is
    removed: a base URL ending in "/api/api" keeps one of them. *)
Theorem base_url_api_suffix_is_optional (b : string) :
  strings_HasSuffix b "/api" = false ->
  let c1 := NewHTTPTaskClient b in
  let c2 := NewHTTPTaskClient (b +:+ "/api") in
  api_root c1 = b /\ api_root c2 = b
  /\ api_root (NewHTTPTaskClient (b +:+ "/api" +:+ "/api")) = b +:+ "/api"
  /\ (forall st, GetAvailableTasks c1 st = GetAvailableTasks c2 st)
  /\ (forall st, FetchTask c1 st = FetchTask c2 st)
  /\ (forall taskID st, StartTask c1 taskID st = StartTask c2 taskID st)
  /\ (forall taskID st, CompleteTask c1 taskID st = CompleteTask c2 taskID st)
  /\ (forall taskID p st,
        SaveTaskResult c1 taskID p st = SaveTaskResult c2 taskID p st)
  /\ (forall taskID status p st,
        UpdateTaskStatus c1 taskID status p st
        = UpdateTaskStatus c2 taskID status p st)
  /\ (forall promptID response pt rt it st,
        CompletePrompt c1 promptID response pt rt it st
        = CompletePrompt c2 promptID response pt rt it st)
  /\ (forall sessionID roundID runnerID gradients weights dataSize loss
             accuracy trainingTime st,
        SubmitFLModelUpdate c1 sessionID roundID runnerID gradients weights
          dataSize loss accuracy trainingTime st
        = SubmitFLModelUpdate c2 sessionID roundID runnerID gradients weights
            dataSize loss accuracy trainingTime st).
Proof.
  intros Hno c1 c2.
  assert (Hr1 : api_root c1 = b) by now apply api_root_of_plain.
  assert (Hr2 : api_root c2 = b) by apply api_root_of_suffixed.
  split; [exact Hr1|]. split; [exact Hr2|].
  split.
  { replace (b +:+ "/api" +:+ "/api") with ((b +:+ "/api") +:+ "/api")
      by apply String_append_assoc.
    apply api_root_of_suffixed. }
  unfold api_root in Hr1, Hr2.
  repeat split; intros;
    unfold UpdateTaskStatus, FetchTask, GetAvailableTasks, StartTask,
      CompleteTask, SaveTaskResult, CompletePrompt, SubmitFLModelUpdate;
    now rewrite Hr1, Hr2.
Qed.
End FLProperties.

(** * The claims on concrete runs *)

#[local] Existing Instance Sample.libraries.

Lemma TaskConfig_Validate_iff_witness :
  TaskConfig_Validate Sample.alpine_TaskConfig TaskTypeDocker = None
  /\ TaskConfig_Validate Sample.zero_TaskConfig "gpu"
     = Some "unsupported task type: gpu".
Proof.
  split.
  - apply (TaskConfig_Validate_iff Sample.alpine_TaskConfig TaskTypeDocker).
    split; [left; reflexivity | discriminate].
  - apply (TaskConfig_Validate_iff Sample.zero_TaskConfig "gpu").
    unfold recognized. intros [E|[E|[E|E]]]; discriminate E.
Defined.

Lemma Task_Validate_first_failure_witness :
  @Task_Validate Sample.libraries Sample.docker_task_without_environment
  = Some "docker environment configuration is required for docker tasks".
Proof.
  destruct (@Task_Validate_first_failure Sample.libraries
              Sample.docker_task_without_environment)
    as (_ & _ & _ & _ & Hdocker & _).
  apply (Hdocker ltac:(discriminate) ltac:(discriminate)
                 Sample.alpine_TaskConfig eq_refl eq_refl);
    [reflexivity | exact I].
Defined.

(** C8 fails as stated: a task with an empty nonce is accepted. *)
Lemma Task_Validate_accepts_empty_Nonce :
  Task_Nonce Sample.first_task = ""
  /\ @Task_Validate Sample.libraries Sample.first_task = None.
Proof. split; reflexivity. Qed.

Lemma UpdateTaskStatus_complete_then_save_witness :
  (exists deviceID body,
      http_calls
        (trace (snd (@UpdateTaskStatus Sample.libraries Sample.happy
                       Sample.client Sample.first_id TaskStatusCompleted
                       (Some 1%positive) Sample.blank_state)))
      = [complete_call Sample.client Sample.first_id;
         result_call Sample.client Sample.first_id deviceID body])
  /\ @UpdateTaskStatus Sample.libraries Sample.happy Sample.client
       Sample.first_id TaskStatusPending (Some 1%positive) Sample.blank_state
     = (Err "unsupported status: pending", Sample.blank_state).
Proof.
  split.
  - destruct (@UpdateTaskStatus_complete_then_save Sample.libraries
                Sample.happy Sample.client Sample.first_id TaskStatusCompleted
                (Some 1%positive) Sample.blank_state) as [Hterminal _].
    destruct (Hterminal ltac:(left; reflexivity)) as (_ & Hok & _).
    set (res := @CompleteTask Sample.happy Sample.client
                  Sample.first_id Sample.blank_state).
    assert (Hc : res = (Ok tt, snd res)) by (vm_compute; reflexivity).
    destruct (Hok _ Hc) as (_ & _ & Hcalls).
    set (upd := @UpdateTaskStatus Sample.libraries Sample.happy Sample.client
                  Sample.first_id TaskStatusCompleted (Some 1%positive)
                  Sample.blank_state) in *.
    assert (Hu : upd = (Ok tt, snd upd)) by (vm_compute; reflexivity).
    exact (Hcalls _ Hu).
  - apply (@UpdateTaskStatus_complete_then_save Sample.libraries Sample.happy
             Sample.client Sample.first_id TaskStatusPending
             (Some 1%positive) Sample.blank_state); discriminate.
Defined.

Lemma FetchTask_claims_first_witness :
  fst (@FetchTask Sample.libraries Sample.happy Sample.client
         Sample.empty_state)
  = Ok Sample.first_task.
Proof.
  destruct (@FetchTask_claims_first Sample.libraries Sample.happy
              Sample.client Sample.empty_state) as (_ & Hfirst & _).
  set (get := @GetAvailableTasks Sample.libraries Sample.happy Sample.client
                Sample.empty_state).
  assert (Hget : get = (Ok [Some Sample.first_task], snd get))
    by (vm_compute; reflexivity).
  destruct (Hfirst _ _ _ Hget) as [Hok _].
  set (start := @StartTask Sample.libraries Sample.happy Sample.client
                  (uuid_String (Task_ID Sample.first_task)) (snd get)).
  assert (Hstart : start = (Ok tt, snd start)) by (vm_compute; reflexivity).
  now rewrite (Hok _ Hstart).
Defined.

(** C4 fails as stated: the server may answer with the JSON array
    [[null]], which decodes to a list of length one whose entry is a nil
    pointer; [FetchTask] then panics on [task.ID], after the GET and
    before any claim. *)
Lemma FetchTask_panics_on_null_entry :
  @GetAvailableTasks Sample.libraries Sample.null_queue Sample.client
    Sample.empty_state
  = (Ok [None],
     mkState ∅ [CallHttp (Get (available_url Sample.client))])
  /\ @FetchTask Sample.libraries Sample.null_queue Sample.client
       Sample.empty_state
     = (Panic nil_dereference,
        mkState ∅ [CallHttp (Get (available_url Sample.client))]).
Proof. split; vm_compute; reflexivity. Qed.

Lemma StartTask_status_mapping_witness :
  fst (@StartTask Sample.libraries Sample.contended Sample.client
         Sample.first_id Sample.empty_state)
  = Err "task unavailable: taken".
Proof.
  destruct (@StartTask_status_mapping Sample.libraries) as (_ & Hmap & _).
  destruct (Hmap Sample.contended Sample.client Sample.first_id
                 Sample.empty_state (mkResponse 409 "taken"))
    as (_ & Hconflict & _).
  - exists "runner-7". repeat split; vm_compute; reflexivity.
  - exact (Hconflict eq_refl).
Defined.

Lemma SaveTaskResult_fills_defaults_witness :
  heap (snd (@SaveTaskResult Sample.libraries Sample.happy Sample.client
               Sample.first_id (Some 1%positive) Sample.blank_state))
    !! 1%positive
  = Some (mkTaskResult 1%N "runner-7" 1700000000%Z 0%Z "ok" []).
Proof.
  destruct (@SaveTaskResult_fills_defaults Sample.libraries Sample.happy
              Sample.client Sample.first_id 1%positive Sample.blank_result
              "runner-7" 1%N Sample.blank_state)
    as (r' & Hid & Hat & Haddr & Hcode & Hlogs & Hout & _ & Hheap & _).
  - reflexivity.
  - reflexivity.
  - intros _. vm_compute. reflexivity.
  - rewrite Hheap. destruct r'. simpl in *. now subst.
Defined.




(** * The further properties on concrete runs *)

Lemma Task_Validate_reads_only_witness :
  @Task_Validate Sample.libraries
    (mkTask 5%N "build" "nightly" TaskTypeCommand TaskStatusRunning "{}"
            (Some (mkEnvironmentConfig "docker" "")) 3%Z "0xabc" "dev-1"
            "runner-7" "n-42" 1%Z 2%Z (Some 3%Z))
  = @Task_Validate Sample.libraries Sample.first_task.
Proof.
  apply (@Task_Validate_reads_only Sample.libraries); try reflexivity.
  intros Hdocker. discriminate Hdocker.
Defined.

Lemma TaskConfig_Validate_reads_only_witness :
  TaskConfig_Validate
    (mkTaskConfig "https://example.org/job.tar" ∅
                  (mkResourceConfig "512m" 2%Z "30s")
                  "registry.example.org/alpine" "alpine")
    TaskTypeDocker
  = TaskConfig_Validate Sample.alpine_TaskConfig TaskTypeDocker.
Proof. apply TaskConfig_Validate_reads_only. right. reflexivity. Defined.

Lemma FetchTask_success_means_claimed_witness :
  exists deviceID,
    snd (@FetchTask Sample.libraries Sample.happy Sample.client
           Sample.empty_state)
    = mkState ∅
        [CallHttp (Get (available_url Sample.client)); CallVerifyDeviceID;
         CallHttp (start_call Sample.client Sample.first_id deviceID)].
Proof.
  set (res := @FetchTask Sample.libraries Sample.happy Sample.client
                Sample.empty_state).
  assert (Hres : res = (Ok Sample.first_task, snd res))
    by (vm_compute; reflexivity).
  destruct (@FetchTask_success_means_claimed Sample.libraries Sample.happy
              Sample.client Sample.empty_state Sample.first_task (snd res)
              Hres)
    as (resp & rest & deviceID & _ & _ & _ & _ & Hst & _).
  exists deviceID. exact Hst.
Defined.

Lemma SaveTaskResult_populated_result_witness :
  heap (snd (@SaveTaskResult Sample.libraries Sample.happy Sample.client
               "not-a-uuid" (Some 1%positive) Sample.full_state))
  = heap Sample.full_state
  /\ forall msg,
       fst (@SaveTaskResult Sample.libraries Sample.happy Sample.client
              "not-a-uuid" (Some 1%positive) Sample.full_state)
       <> Panic msg.
Proof.
  destruct (@SaveTaskResult_populated_result Sample.libraries Sample.happy
              Sample.client "not-a-uuid" 1%positive Sample.full_result
              "runner-7" Sample.full_state)
    as (Hheap & Hnp & _).
  - reflexivity.
  - repeat split; discriminate.
  - reflexivity.
  - split; [exact Hheap | exact Hnp].
Defined.

Lemma SaveTaskResult_prefers_server_message_witness :
  fst (@SaveTaskResult Sample.libraries Sample.over_quota Sample.client
         Sample.first_id (Some 1%positive) Sample.blank_state)
  = Err "server error: quota exceeded".
Proof.
  eapply (proj1 (@SaveTaskResult_prefers_server_message Sample.libraries
                   Sample.over_quota Sample.client Sample.first_id 1%positive
                   Sample.blank_result "runner-7" 1%N _
                   (mkResponse 429 Sample.quota_document) Sample.blank_state
                   eq_refl eq_refl (fun _ => eq_refl) eq_refl eq_refl eq_refl
                   ltac:(discriminate))).
  - vm_compute. reflexivity.
  - discriminate.
Defined.

Lemma UpdateTaskStatus_completes_before_identity_witness :
  @UpdateTaskStatus Sample.libraries Sample.identity_lost Sample.client
    Sample.first_id TaskStatusFailed (Some 1%positive) Sample.blank_state
  = (Err "failed to get device ID: device ID not found",
     mkState (heap Sample.blank_state)
       [CallHttp (complete_call Sample.client Sample.first_id);
        CallVerifyDeviceID]).
Proof.
  apply (@UpdateTaskStatus_completes_before_identity Sample.libraries
           Sample.identity_lost Sample.client Sample.first_id TaskStatusFailed
           1%positive (mkResponse 200 "{}") "device ID not found"
           Sample.blank_state).
  - right. reflexivity.
  - reflexivity.
  - reflexivity.
  - reflexivity.
Defined.

Lemma base_url_api_suffix_is_optional_witness :
  api_root (NewHTTPTaskClient "http://localhost:8080/api")
  = api_root (NewHTTPTaskClient "http://localhost:8080")
  /\ forall taskID st,
       @StartTask Sample.libraries Sample.happy
         (NewHTTPTaskClient "http://localhost:8080") taskID st
       = @StartTask Sample.libraries Sample.happy
           (NewHTTPTaskClient "http://localhost:8080/api") taskID st.
Proof.
  destruct (@base_url_api_suffix_is_optional Sample.libraries
              Sample.payload_libraries Sample.happy "http://localhost:8080"
              eq_refl)
    as (H1 & H2 & _ & _ & _ & Hstart & _).
  split; [|exact Hstart].
  change (api_root (NewHTTPTaskClient ("http://localhost:8080" +:+ "/api"))
          = api_root (NewHTTPTaskClient "http://localhost:8080")).
  now rewrite H1, H2.
Defined.
